(** * A shallow embedding of the NES emulator sketches

    The repository holds three near-duplicate Python files.  The memory map
    ([Memory.read], [Memory.write]) is the same in all of them; the word
    fetch, the instruction interpreter and the iNES loader differ between
    [EMUNESV0.py] (nine opcodes, [load_ines_rom]) and [EMUAI4K.py] (five
    opcodes, loader inlined in [EmulatorApp.__init__]).  Both are embedded
    below, each in a module of its own.  The third file,
    [EMU4K4.2.25$1.0.py], has the word fetch and the loader of
    [EMUNESV0.py] and a five-opcode interpreter with the address masks of
    [EMUNESV0.py]; it is not embedded separately.

    Python integers are unbounded, so they are modelled by [Z]; the masks
    [& 0xFF] and [& 0xFFFF] of the source are written out with [Z.land].
    Python lists and [bytes] objects are lists of [Z]; indexing raises
    [IndexError] out of range and [%] raises [ZeroDivisionError] on a zero
    divisor, so every operation returns a [result]. *)

From Stdlib Require Import ZArith List Lia Bool String Ascii.
From Stdlib Require Zbitwise.
From stdpp Require Import base list.
Import ListNotations.
Local Open Scope Z_scope.

(** ** Exceptions and results *)

Inductive exn : Type :=
| ZeroDivisionError
| IndexError
| ValueError.

Inductive result (T : Type) : Type :=
| Ok (v : T)
| Raise (e : exn).

Arguments Ok {T} v.
Arguments Raise {T} e.

Definition bind {T U : Type} (r : result T) (k : T -> result U) : result U :=
  match r with
  | Ok v => k v
  | Raise e => Raise e
  end.

Notation "'let*' x ':=' r 'in' k" := (bind r (fun x => k))
  (at level 10, x name, r at level 100, k at level 200).

(** ** The Python primitives the source relies on *)

Module Py.

(** [a % b]: the sign of the result follows the divisor, as for
    [Z.modulo]; a zero divisor raises. *)
Definition mod_ (a b : Z) : result Z :=
  if b =? 0 then Raise ZeroDivisionError else Ok (a mod b).

Definition len (l : list Z) : Z := Z.of_nat (length l).

(** The position [l[i]] denotes: a negative index counts from the end. *)
Definition position (l : list Z) (i : Z) : result nat :=
  let j := if i <? 0 then i + len l else i in
  if (j <? 0) || (len l <=? j) then Raise IndexError else Ok (Z.to_nat j).

(** [l[i]] *)
Definition getitem (l : list Z) (i : Z) : result Z :=
  let* p := position l i in
  match l !! p with
  | Some v => Ok v
  | None => Raise IndexError
  end.

(** [l[i] = v] *)
Definition setitem (l : list Z) (i : Z) (v : Z) : result (list Z) :=
  let* p := position l i in Ok (<[p := v]> l).

(** Truth value of an integer used as a condition. *)
Definition truthy (v : Z) : bool := negb (v =? 0).

(** [f.read(n)] on a binary file whose unread content is [f], for
    [n >= 0]: the bytes read and the content left. *)
Definition file_read (f : list Z) (n : Z) : list Z * list Z :=
  (take (Z.to_nat n) f, drop (Z.to_nat n) f).

(** [b[0:n]] for [n >= 0] *)
Definition slice0 (b : list Z) (n : Z) : list Z := take (Z.to_nat n) b.

Definition bytes_eqb (a b : list Z) : bool :=
  bool_decide (a = b).

End Py.

(** ** Memory map (identical in the three files) *)

Definition RAM_SIZE : Z := 0x800.

Record Memory : Type := mkMemory {
  ram : list Z;
  prg_rom : list Z
}.

(** [Memory.__init__] *)
Definition Memory_init (prg : list Z) : Memory :=
  {| ram := replicate (Z.to_nat RAM_SIZE) 0; prg_rom := prg |}.

(** [Memory.read] *)
Definition read (m : Memory) (address : Z) : result Z :=
  if address <? 0x2000 then
    Py.getitem (ram m) (address mod RAM_SIZE)
  else if address >=? 0x8000 then
    let* i := Py.mod_ (address - 0x8000) (Py.len (prg_rom m)) in
    Py.getitem (prg_rom m) i
  else Ok 0.

(** [Memory.write]; the object is mutated in place, which is modelled by
    returning the new memory. *)
Definition write (m : Memory) (address value : Z) : result Memory :=
  if address <? 0x2000 then
    let* r := Py.setitem (ram m) (address mod RAM_SIZE) (Z.land value 0xFF) in
    Ok {| ram := r; prg_rom := prg_rom m |}
  else Ok m.

(** ** Processor state (the fields of [CPU]) *)

Record CPU : Type := mkCPU {
  memory : Memory;
  PC : Z;
  A : Z;
  X : Z;
  Y : Z;
  SP : Z;
  status : Z
}.

Definition with_memory (c : CPU) (m : Memory) : CPU :=
  mkCPU m (PC c) (A c) (X c) (Y c) (SP c) (status c).
Definition with_PC (c : CPU) (v : Z) : CPU :=
  mkCPU (memory c) v (A c) (X c) (Y c) (SP c) (status c).
Definition with_A (c : CPU) (v : Z) : CPU :=
  mkCPU (memory c) (PC c) v (X c) (Y c) (SP c) (status c).
Definition with_X (c : CPU) (v : Z) : CPU :=
  mkCPU (memory c) (PC c) (A c) v (Y c) (SP c) (status c).
Definition with_Y (c : CPU) (v : Z) : CPU :=
  mkCPU (memory c) (PC c) (A c) (X c) v (SP c) (status c).
Definition with_status (c : CPU) (v : Z) : CPU :=
  mkCPU (memory c) (PC c) (A c) (X c) (Y c) (SP c) v.

(** [CPU.set_flag]: [~flag] is Python's two's-complement negation. *)
Definition set_flag (c : CPU) (flag : Z) (value : bool) : CPU :=
  if value then with_status c (Z.lor (status c) flag)
  else with_status c (Z.land (status c) (Z.lnot flag)).

(** [CPU.get_flag] *)
Definition get_flag (c : CPU) (flag : Z) : bool :=
  negb (Z.land (status c) flag =? 0).

(** ** [EMUNESV0.py] *)

Module EMUNESV0.

(** [Memory.read_word] *)
Definition read_word (m : Memory) (address : Z) : result Z :=
  let* lo := read m address in
  let* hi := read m (Z.land (address + 1) 0xFFFF) in
  Ok (Z.lor (Z.shiftl hi 8) lo).

(** [CPU.__init__] *)
Definition CPU_init (m : Memory) : result CPU :=
  let* pc := read_word m 0xFFFC in
  Ok (mkCPU m pc 0 0 0 0xFD 0x24).

(** [CPU.step] *)
Definition step (c : CPU) : result CPU :=
  let* opcode := read (memory c) (PC c) in
  let c := with_PC c (Z.land (PC c + 1) 0xFFFF) in
  if opcode =? 0xA9 then
    let* value := read (memory c) (PC c) in
    let c := with_PC c (Z.land (PC c + 1) 0xFFFF) in
    let c := with_A c value in
    let c := set_flag c 0x02 (A c =? 0) in
    let c := set_flag c 0x80 (Py.truthy (Z.land (A c) 0x80)) in
    Ok c
  else if opcode =? 0xA2 then
    let* value := read (memory c) (PC c) in
    let c := with_PC c (Z.land (PC c + 1) 0xFFFF) in
    let c := with_X c value in
    let c := set_flag c 0x02 (X c =? 0) in
    let c := set_flag c 0x80 (Py.truthy (Z.land (X c) 0x80)) in
    Ok c
  else if opcode =? 0xA0 then
    let* value := read (memory c) (PC c) in
    let c := with_PC c (Z.land (PC c + 1) 0xFFFF) in
    let c := with_Y c value in
    let c := set_flag c 0x02 (Y c =? 0) in
    let c := set_flag c 0x80 (Py.truthy (Z.land (Y c) 0x80)) in
    Ok c
  else if opcode =? 0x8D then
    let* lo := read (memory c) (PC c) in
    let* hi := read (memory c) (Z.land (PC c + 1) 0xFFFF) in
    let addr := Z.lor lo (Z.shiftl hi 8) in
    let c := with_PC c (Z.land (PC c + 2) 0xFFFF) in
    let* m := write (memory c) addr (A c) in
    Ok (with_memory c m)
  else if opcode =? 0x4C then
    let* lo := read (memory c) (PC c) in
    let* hi := read (memory c) (Z.land (PC c + 1) 0xFFFF) in
    Ok (with_PC c (Z.lor lo (Z.shiftl hi 8)))
  else if opcode =? 0xEA then
    Ok c
  else if opcode =? 0xE8 then
    let c := with_X c (Z.land (X c + 1) 0xFF) in
    let c := set_flag c 0x02 (X c =? 0) in
    let c := set_flag c 0x80 (Py.truthy (Z.land (X c) 0x80)) in
    Ok c
  else if opcode =? 0xCA then
    let c := with_X c (Z.land (X c - 1) 0xFF) in
    let c := set_flag c 0x02 (X c =? 0) in
    let c := set_flag c 0x80 (Py.truthy (Z.land (X c) 0x80)) in
    Ok c
  else if opcode =? 0x00 then
    Ok c
  else
    Ok c.

(** [n] successive calls of [step] *)
Fixpoint steps (n : nat) (c : CPU) : result CPU :=
  match n with
  | O => Ok c
  | S k => let* c' := step c in steps k c'
  end.

(** [load_ines_rom], on the content of the opened file; opening the file
    is left to the caller. *)
Definition load_ines_rom (file : list Z) : result (list Z * list Z) :=
  let '(header, f) := Py.file_read file 16 in
  if negb (Py.bytes_eqb (Py.slice0 header 4) [0x4E; 0x45; 0x53; 0x1A]) then
    Raise ValueError
  else
    let* h4 := Py.getitem header 4 in
    let prg_rom_size := h4 * 16 * 1024 in
    let* h5 := Py.getitem header 5 in
    let chr_rom_size := h5 * 8 * 1024 in
    let* h6 := Py.getitem header 6 in
    let f := if Py.truthy (Z.land h6 0x04) then snd (Py.file_read f 512) else f in
    let '(prg, f) := Py.file_read f prg_rom_size in
    let chr := if chr_rom_size >? 0 then fst (Py.file_read f chr_rom_size) else [] in
    Ok (prg, chr).

End EMUNESV0.

(** ** [EMUAI4K.py] *)

Module EMUAI4K.

(** [Memory.read_word]: the high byte is read at [address + 1], unmasked. *)
Definition read_word (m : Memory) (address : Z) : result Z :=
  let* lo := read m address in
  let* hi := read m (address + 1) in
  Ok (Z.lor (Z.shiftl hi 8) lo).

(** [CPU.__init__] *)
Definition CPU_init (m : Memory) : result CPU :=
  let* pc := read_word m 0xFFFC in
  Ok (mkCPU m pc 0 0 0 0xFD 0x24).

(** [CPU.step] *)
Definition step (c : CPU) : result CPU :=
  let* opcode := read (memory c) (PC c) in
  let c := with_PC c (Z.land (PC c + 1) 0xFFFF) in
  if opcode =? 0xA9 then
    let* value := read (memory c) (PC c) in
    let c := with_PC c (Z.land (PC c + 1) 0xFFFF) in
    let c := with_A c value in
    let c := set_flag c 0x02 (A c =? 0) in
    let c := set_flag c 0x80 (Py.truthy (Z.land (A c) 0x80)) in
    Ok c
  else if opcode =? 0x8D then
    let* lo := read (memory c) (PC c) in
    let* hi := read (memory c) (PC c + 1) in
    let addr := Z.lor lo (Z.shiftl hi 8) in
    let c := with_PC c (Z.land (PC c + 2) 0xFFFF) in
    let* m := write (memory c) addr (A c) in
    Ok (with_memory c m)
  else if opcode =? 0x4C then
    let* lo := read (memory c) (PC c) in
    let* hi := read (memory c) (PC c + 1) in
    Ok (with_PC c (Z.lor lo (Z.shiftl hi 8)))
  else if opcode =? 0xEA then
    Ok c
  else if opcode =? 0x00 then
    Ok c
  else
    Ok c.

(** The loader inlined in [EmulatorApp.__init__], on the content of the
    opened file.  There is no signature test and no trainer skip. *)
Definition load_rom (file : list Z) : result (list Z * list Z) :=
  let '(header, f) := Py.file_read file 16 in
  let* h4 := Py.getitem header 4 in
  let prg_rom_size := 16384 * h4 in
  let* h5 := Py.getitem header 5 in
  let chr_rom_size := 8192 * h5 in
  let '(prg, f) := Py.file_read f prg_rom_size in
  let '(chr, _) := Py.file_read f chr_rom_size in
  Ok (prg, chr).

End EMUAI4K.

(** ** Well-formed states *)

Definition is_byte (v : Z) : Prop := 0 <= v < 256.

Definition is_byteb (v : Z) : bool := (0 <=? v) && (v <? 256).

(** The work RAM always has [RAM_SIZE] cells: [__init__] allocates that
    many and [write] only assigns to an existing index. *)
Definition ram_sized (m : Memory) : Prop := Py.len (ram m) = RAM_SIZE.

(** A sequence of [write] calls, each given as (address, value). *)
Fixpoint writes (m : Memory) (ws : list (Z * Z)) : result Memory :=
  match ws with
  | [] => Ok m
  | (a, v) :: ws' => let* m' := write m a v in writes m' ws'
  end.

Definition bytesb (l : list Z) : bool := forallb is_byteb l.

(** The two flag updates every load, increment and decrement ends with:
    [set_flag(0x02, r == 0)] then [set_flag(0x80, r & 0x80)]. *)
Definition update_zn (c : CPU) (r : Z) : CPU :=
  set_flag (set_flag c 0x02 (r =? 0)) 0x80 (Py.truthy (Z.land r 0x80)).

(** The opcodes of the decode table of [EMUNESV0.py]. *)
Definition decode_table : list Z :=
  [0xA9; 0xA2; 0xA0; 0x8D; 0x4C; 0xEA; 0xE8; 0xCA; 0x00].

(** What the flag rule promises about the state [c'] reached from [c] when
    the affected register holds [r]: Zero is set iff [r = 0], Negative is
    bit 7 of [r], and every other bit of the status byte is as before. *)
Definition flags_follow (c c' : CPU) (r : Z) : Prop :=
  get_flag c' 0x02 = (r =? 0)
  /\ get_flag c' 0x80 = Z.testbit r 7
  /\ forall i, i <> 1 -> i <> 7 -> Z.testbit (status c') i = Z.testbit (status c) i.

(** A state that differs from [c] in the program counter only. *)
Definition only_PC_changed (c c' : CPU) (pc : Z) : Prop :=
  PC c' = pc /\ A c' = A c /\ X c' = X c /\ Y c' = Y c /\ SP c' = SP c
  /\ status c' = status c
  /\ ram (memory c') = ram (memory c)
  /\ prg_rom (memory c') = prg_rom (memory c).

(** The register ranges of the processor state. *)
Definition regs_in_range (c : CPU) : Prop :=
  is_byte (A c) /\ is_byte (X c) /\ is_byte (Y c) /\ 0 <= PC c <= 0xFFFF.

(** An all-NOP 16 KiB PRG bank. *)
Definition nop_bank : list Z := replicate (Z.to_nat 16384) 0xEA.

(** A 16 KiB PRG bank with [program] at its start (CPU address [$8000]),
    NOPs after it and the reset vector [$8000] in its last four bytes
    (CPU addresses [$FFFC]-[$FFFF]). *)
Definition bank_with (program : list Z) : list Z :=
  program ++ replicate (Z.to_nat (16384 - 4 - Py.len program)) 0xEA
    ++ [0x00; 0x80; 0x00; 0x00].

(** [LDA #5; STA $0200; JMP $8000] *)
Definition demo_bank : list Z :=
  bank_with [0xA9; 0x05; 0x8D; 0x00; 0x02; 0x4C; 0x00; 0x80].

(** [LDX #5] *)
Definition ldx_bank : list Z := bank_with [0xA2; 0x05].



(** An iNES header: signature, PRG banks, CHR banks, flags 6, and nine
    bytes that the loader does not look at. *)
Definition ines_header (sig : list Z) (prg_banks chr_banks flags6 : Z) : list Z :=
  sig ++ [prg_banks; chr_banks; flags6] ++ replicate 9 0.

Definition ines_signature : list Z := [0x4E; 0x45; 0x53; 0x1A].

(** The flag rule for a step from [c] to [c'] that fetched [op]: the loaded
    register holds the operand byte (the incremented or decremented one its
    new value mod 256) and the flags follow that register. *)
Definition flag_law (c : CPU) (op : Z) (c' : CPU) : Prop :=
  (op = 0xA9 ->
     read (memory c) ((PC c + 1) mod 0x10000) = Ok (A c') /\ flags_follow c c' (A c'))
  /\ (op = 0xA2 ->
     read (memory c) ((PC c + 1) mod 0x10000) = Ok (X c') /\ flags_follow c c' (X c'))
  /\ (op = 0xA0 ->
     read (memory c) ((PC c + 1) mod 0x10000) = Ok (Y c') /\ flags_follow c c' (Y c'))
  /\ (op = 0xE8 -> X c' = (X c + 1) mod 256 /\ flags_follow c c' (X c'))
  /\ (op = 0xCA -> X c' = (X c - 1) mod 256 /\ flags_follow c c' (X c')).

(** The processor state right after reset over a fresh memory whose reset
    vector is [$8000], as [CPU.__init__] builds it over [bank_with]. *)
Definition boot (prg : list Z) : CPU :=
  mkCPU (Memory_init prg) 0x8000 0 0 0 0xFD 0x24.

(** [read] returns the bytes of [code] at the addresses from [base] on. *)
Fixpoint program_at (m : Memory) (base : Z) (code : list Z) : bool :=
  match code with
  | [] => true
  | b :: rest =>
      match read m base with
      | Ok v => v =? b
      | Raise _ => false
      end && program_at m (base + 1) rest
  end.

(** The invariant of the fetch-execute loop. *)
Definition CPU_ok (c : CPU) : Prop :=
  ram_sized (memory c)
  /\ Forall is_byte (ram (memory c))
  /\ Forall is_byte (prg_rom (memory c))
  /\ prg_rom (memory c) <> []
  /\ regs_in_range c.

(** The word fetch in the words of the specification:
    [read(a) | (read((a+1) mod 0x10000) << 8)], the high byte address
    wrapping at 64 KiB.  [EMUNESV0.read_word] and [EMUAI4K.read_word] are
    compared with it below. *)
Definition little_endian_word (m : Memory) (a : Z) : result Z :=
  let* lo := read m a in
  let* hi := read m ((a + 1) mod 0x10000) in
  Ok (Z.lor lo (Z.shiftl hi 8)).

(** ** The rest of [EMUNESV0.py]: formatter, command line, stubs, window *)

(** [bytearray] item assignment [b[i] = v]: the value must be a byte. *)
Definition bytearray_setitem (b : list Z) (i v : Z) : result (list Z) :=
  if (0 <=? v) && (v <? 256) then Py.setitem b i v else Raise ValueError.

(** [format_ines_rom], on the content [prg_data] of the PRG file and, when
    [chr_path] is given, the content of the CHR file; the result is what is
    written to the output file.  The header is built, and may raise, before
    the output file is opened. *)
Definition format_ines_rom (prg_data : list Z) (chr_file : option (list Z))
  : result (list Z) :=
  let prg_size := Py.len prg_data / (16 * 1024) in
  let '(chr_data, chr_size) :=
    match chr_file with
    | Some d => (d, Py.len d / (8 * 1024))
    | None => ([], 0)
    end in
  let header := replicate 16 0 in
  let header := [0x4E; 0x45; 0x53; 0x1A] ++ drop 4 header in
  let* header := bytearray_setitem header 4 prg_size in
  let* header := bytearray_setitem header 5 chr_size in
  Ok (header ++ prg_data ++ (if Py.len chr_data =? 0 then [] else chr_data)).

(** [s.endswith(suffix)] *)
Definition endswith (s suffix : string) : bool :=
  let n := String.length s in
  let k := String.length suffix in
  if (k <=? n)%nat then String.eqb (substring (n - k) k s) suffix else false.

(** [argv[i]] for [i >= 0] *)
Definition argv_getitem (argv : list string) (i : nat) : result string :=
  match argv !! i with
  | Some s => Ok s
  | None => Raise IndexError
  end.

(** What [main] goes on to do. *)
Inductive main_action : Type :=
| FormatRom (prg_path : string) (chr_path : option string) (output_path : string)
| RunWindow.

(** [main], up to the call it makes; [argv] is [sys.argv]. *)
Definition main (argv : list string) : result main_action :=
  let n := length argv in
  let formatting :=
    if (1 <? n)%nat then
      match argv !! 1%nat with
      | Some a => String.eqb a "--format-rom"
      | None => false
      end
    else false in
  if formatting then
    let* prg_path := argv_getitem argv 2 in
    let* chr_path :=
      if (3 <? n)%nat then
        let* a := argv_getitem argv 3 in
        Ok (if endswith a ".bin" then Some a else None)
      else Ok None in
    let* output_path :=
      if (4 <? n)%nat then argv_getitem argv 4 else Ok "output.nes"%string in
    Ok (FormatRom prg_path chr_path output_path)
  else Ok RunWindow.

(** [PPU]: the frame is a 240 x 256 x 3 array of bytes. *)
Record PPU : Type := mkPPU {
  chr_rom : list Z;
  frame : list (list (list Z))
}.

(** [PPU.__init__] *)
Definition PPU_init (chr : list Z) : PPU :=
  mkPPU chr (replicate 240 (replicate 256 (replicate 3 0))).

(** [PPU.render_frame]: fills the frame in place and returns it. *)
Definition render_frame (p : PPU) : PPU * list (list (list Z)) :=
  let f := map (map (map (fun _ : Z => 0))) (frame p) in
  (mkPPU (chr_rom p) f, f).

(** Exceptions of the window code: those of the core, a file that cannot
    be opened, and an attribute of [None]. *)
Inductive gui_exn : Type :=
| Core (e : exn)
| OSError
| AttributeError.

(** What [self.memory] refers to: the object held by [self.cpu] as well
    ([Shared]), or an object no CPU refers to ([Own]). *)
Inductive mem_ref : Type :=
| Shared
| Own (m : Memory).

(** The fields of [EmulatorApp] that its methods assign, the text of the
    status bar, the image on the canvas, the error boxes shown so far
    (latest first) and the number of callbacks registered with
    [root.after] that have not run yet. *)
Record EmulatorApp : Type := mkApp {
  status_var : string;
  image : list (list (list Z));
  app_memory : option mem_ref;
  app_cpu : option CPU;
  app_ppu : option PPU;
  running : bool;
  errors_shown : list gui_exn;
  after_pending : nat
}.

(** [EmulatorApp.__init__] *)
Definition EmulatorApp_init : EmulatorApp :=
  mkApp "No ROM loaded." (replicate 240 (replicate 256 (replicate 3 0)))
        None None None false [] 0.

(** [EmulatorApp.emulate]: the state it leaves and the exception that
    escapes, if any.  When [step] raises, the CPU is recorded as it was
    before the call; the properties below only use the branches in which
    [step] returns. *)
Definition emulate (app : EmulatorApp) : EmulatorApp * option gui_exn :=
  if negb (running app) then (app, None)
  else
    match app_cpu app with
    | None => (app, Some AttributeError)
    | Some c =>
        match EMUNESV0.step c with
        | Raise e => (app, Some (Core e))
        | Ok c' =>
            let app :=
              mkApp (status_var app) (image app) (app_memory app) (Some c')
                    (app_ppu app) (running app) (errors_shown app)
                    (after_pending app) in
            match app_ppu app with
            | None => (app, Some AttributeError)
            | Some p =>
                let '(p', f) := render_frame p in
                (mkApp (status_var app) f (app_memory app) (app_cpu app)
                       (Some p') (running app) (errors_shown app)
                       (S (after_pending app)), None)
            end
        end
    end.

(** A callback registered with [root.after] runs. *)
Definition timer_fires (app : EmulatorApp) : EmulatorApp * option gui_exn :=
  match after_pending app with
  | O => (app, None)
  | S k =>
      emulate (mkApp (status_var app) (image app) (app_memory app) (app_cpu app)
                     (app_ppu app) (running app) (errors_shown app) k)
  end.

(** [EmulatorApp.open_rom]: [rom_file] is what the file dialog returns (the
    empty string when cancelled) and [content] what the file holds, [None]
    when it cannot be opened. *)
Definition open_rom (app : EmulatorApp) (rom_file : string)
  (content : option (list Z)) : EmulatorApp * option gui_exn :=
  if String.eqb rom_file "" then (app, None)
  else
    let loaded :=
      match content with
      | None => inl OSError
      | Some file =>
          match EMUNESV0.load_ines_rom file with
          | Ok r => inr r
          | Raise e => inl (Core e)
          end
      end in
    match loaded with
    | inl e =>
        (mkApp (status_var app) (image app) (app_memory app) (app_cpu app)
               (app_ppu app) (running app) (e :: errors_shown app)
               (after_pending app), None)
    | inr (prg, chr) =>
        let m := Memory_init prg in
        match EMUNESV0.CPU_init m with
        | Raise e =>
            (mkApp (status_var app) (image app) (Some (Own m)) (app_cpu app)
                   (app_ppu app) (running app) (errors_shown app)
                   (after_pending app), Some (Core e))
        | Ok c =>
            emulate
              (mkApp (String.append "Loaded: " rom_file) (image app) (Some Shared)
                     (Some c) (Some (PPU_init chr)) true (errors_shown app)
                     (after_pending app))
        end
    end.

(** [CPU_ok] as a test. *)
Definition CPU_okb (c : CPU) : bool :=
  (Py.len (ram (memory c)) =? RAM_SIZE)
  && bytesb (ram (memory c))
  && bytesb (prg_rom (memory c))
  && negb (Py.len (prg_rom (memory c)) =? 0)
  && is_byteb (A c) && is_byteb (X c) && is_byteb (Y c)
  && (0 <=? PC c) && (PC c <=? 0xFFFF).

(** ** Proof automation *)

(** Case analysis on the integer comparisons of the goal. *)
Ltac zcmp :=
  repeat match goal with
    | |- context [?a >=? ?b] => rewrite (Z.geb_leb a b)
    | |- context [?a >? ?b] => rewrite (Z.gtb_ltb a b)
    | |- context [?a <? ?b] => destruct (Z.ltb_spec a b)
    | |- context [?a <=? ?b] => destruct (Z.leb_spec a b)
    | |- context [?a =? ?b] => destruct (Z.eqb_spec a b)
    end.

(** Case analysis on the opcodes that are not inert. *)
Ltac by_opcode op :=
  destruct (Z.eq_dec op 0xA9) as [? | ?];
  [| destruct (Z.eq_dec op 0xA2) as [? | ?];
  [| destruct (Z.eq_dec op 0xA0) as [? | ?];
  [| destruct (Z.eq_dec op 0x8D) as [? | ?];
  [| destruct (Z.eq_dec op 0x4C) as [? | ?];
  [| destruct (Z.eq_dec op 0xE8) as [? | ?];
  [| destruct (Z.eq_dec op 0xCA) as [? | ?]]]]]]].

(** One goal per opcode of a per-opcode law. *)
Ltac flag_cases :=
  repeat match goal with
    | |- (_ -> _) /\ _ => split
    end;
  intros Heq; try discriminate Heq; clear Heq.

(** * Properties *)

(** ** Python primitives *)

Lemma position_in_range (l : list Z) (i : Z) :
  0 <= i < Py.len l -> Py.position l i = Ok (Z.to_nat i).
Proof.
  intros Hi. unfold Py.position. zcmp; simpl; try lia; reflexivity.
Qed.

Lemma getitem_in_range (l : list Z) (i : Z) :
  0 <= i < Py.len l ->
  exists v, l !! Z.to_nat i = Some v /\ Py.getitem l i = Ok v.
Proof.
  intros Hi. unfold Py.getitem. rewrite position_in_range by assumption.
  simpl. destruct (lookup_lt_is_Some_2 l (Z.to_nat i)) as [v Hv].
  - unfold Py.len in Hi. lia.
  - exists v. rewrite Hv. auto.
Qed.

Lemma setitem_in_range (l : list Z) (i v : Z) :
  0 <= i < Py.len l -> Py.setitem l i v = Ok (<[Z.to_nat i := v]> l).
Proof.
  intros Hi. unfold Py.setitem. rewrite position_in_range by assumption.
  reflexivity.
Qed.

Lemma is_byteb_spec (v : Z) : is_byteb v = true <-> is_byte v.
Proof.
  unfold is_byteb, is_byte. rewrite andb_true_iff, Z.leb_le, Z.ltb_lt. tauto.
Qed.

Lemma land_255 (v : Z) : Z.land v 0xFF = v mod 256.
Proof. change 0xFF with (Z.ones 8). rewrite Z.land_ones by lia. reflexivity. Qed.

Lemma land_65535 (v : Z) : Z.land v 0xFFFF = v mod 0x10000.
Proof. change 0xFFFF with (Z.ones 16). rewrite Z.land_ones by lia. reflexivity. Qed.

Lemma land_255_byte (v : Z) : is_byte (Z.land v 0xFF).
Proof. rewrite land_255. unfold is_byte. apply Z.mod_pos_bound. lia. Qed.

(** ** The memory map *)

Lemma ram_index_in_range (m : Memory) (a : Z) :
  ram_sized m -> 0 <= a mod RAM_SIZE < Py.len (ram m).
Proof.
  intros Hm. rewrite Hm. apply Z.mod_pos_bound. reflexivity.
Qed.

Lemma read_ram (m : Memory) (a : Z) :
  ram_sized m -> a < 0x2000 ->
  exists v, ram m !! Z.to_nat (a mod RAM_SIZE) = Some v /\ read m a = Ok v.
Proof.
  intros Hm Ha. unfold read. zcmp; try lia.
  apply getitem_in_range, ram_index_in_range, Hm.
Qed.

Lemma read_unmapped (m : Memory) (a : Z) :
  0x2000 <= a < 0x8000 -> read m a = Ok 0.
Proof. intros Ha. unfold read. zcmp; try lia; reflexivity. Qed.

Lemma read_rom (m : Memory) (a : Z) :
  prg_rom m <> [] -> 0x8000 <= a ->
  exists v, prg_rom m !! Z.to_nat ((a - 0x8000) mod Py.len (prg_rom m)) = Some v
            /\ read m a = Ok v.
Proof.
  intros Hrom Ha. unfold read, Py.mod_.
  assert (0 < Py.len (prg_rom m)).
  { unfold Py.len. destruct (prg_rom m); [congruence | simpl; lia]. }
  zcmp; try lia. simpl. apply getitem_in_range, Z.mod_pos_bound. lia.
Qed.

Lemma read_empty_rom (m : Memory) (a : Z) :
  prg_rom m = [] -> 0x8000 <= a -> read m a = Raise ZeroDivisionError.
Proof.
  intros Hrom Ha. unfold read, Py.mod_. rewrite Hrom. simpl.
  zcmp; try lia; reflexivity.
Qed.

(** Reads succeed everywhere below the ROM window, and in the ROM window
    as soon as the ROM buffer is not empty. *)
Lemma read_defined (m : Memory) (a : Z) :
  ram_sized m -> prg_rom m <> [] \/ a < 0x8000 -> exists v, read m a = Ok v.
Proof.
  intros Hm Hc.
  destruct (Z.lt_ge_cases a 0x2000) as [Hlo | Hlo].
  - destruct (read_ram m a Hm Hlo) as (v & _ & Hv). eauto.
  - destruct (Z.lt_ge_cases a 0x8000) as [Hhi | Hhi].
    + exists 0. apply read_unmapped. lia.
    + destruct Hc as [Hrom | Hc]; [| lia].
      destruct (read_rom m a Hrom Hhi) as (v & _ & Hv). eauto.
Qed.

Lemma read_byte (m : Memory) (a v : Z) :
  Forall is_byte (ram m) -> Forall is_byte (prg_rom m) ->
  read m a = Ok v -> is_byte v.
Proof.
  intros Hram Hrom. unfold read, Py.getitem, Py.mod_.
  rewrite Forall_lookup in Hram. rewrite Forall_lookup in Hrom.
  zcmp; simpl.
  - destruct (Py.position (ram m) (a mod RAM_SIZE)) as [p |]; simpl; [| discriminate].
    destruct (ram m !! p) eqn:E; [| discriminate].
    intros [= <-]. eapply Hram, E.
  - discriminate.
  - destruct (Py.position _ _) as [p |]; simpl; [| discriminate].
    destruct (prg_rom m !! p) eqn:E; [| discriminate].
    intros [= <-]. eapply Hrom, E.
  - intros [= <-]. unfold is_byte. lia.
Qed.

Lemma write_ram (m : Memory) (a v : Z) :
  ram_sized m -> a < 0x2000 ->
  write m a v =
    Ok {| ram := <[Z.to_nat (a mod RAM_SIZE) := Z.land v 0xFF]> (ram m);
          prg_rom := prg_rom m |}.
Proof.
  intros Hm Ha. unfold write. zcmp; try lia.
  rewrite setitem_in_range by (apply ram_index_in_range, Hm). reflexivity.
Qed.

Lemma write_high (m : Memory) (a v : Z) : 0x2000 <= a -> write m a v = Ok m.
Proof. intros Ha. unfold write. zcmp; try lia; reflexivity. Qed.

(** [write] never raises on a memory of the right size, and keeps the size,
    the ROM and the byte range of the cells. *)
Lemma write_defined (m : Memory) (a v : Z) :
  ram_sized m ->
  exists m', write m a v = Ok m' /\ ram_sized m' /\ prg_rom m' = prg_rom m
             /\ (Forall is_byte (ram m) -> Forall is_byte (ram m')).
Proof.
  intros Hm. destruct (Z.lt_ge_cases a 0x2000) as [Ha | Ha].
  - rewrite write_ram by assumption. eexists; split; [reflexivity |].
    simpl. split; [| split; [reflexivity |]].
    + unfold ram_sized, Py.len in *. simpl. rewrite length_insert. exact Hm.
    + intros Hb. apply Forall_insert; [exact Hb | apply land_255_byte].
  - rewrite write_high by assumption. eauto.
Qed.

Lemma Memory_init_sized (prg : list Z) : ram_sized (Memory_init prg).
Proof.
  unfold ram_sized, Py.len, Memory_init. cbn [ram].
  rewrite length_replicate. reflexivity.
Qed.

Lemma Memory_init_bytes (prg : list Z) : Forall is_byte (ram (Memory_init prg)).
Proof.
  unfold Memory_init. cbn [ram]. apply Forall_replicate. unfold is_byte. lia.
Qed.

Lemma writes_defined (ws : list (Z * Z)) : forall m : Memory,
  ram_sized m ->
  exists m', writes m ws = Ok m' /\ ram_sized m' /\ prg_rom m' = prg_rom m
             /\ (Forall is_byte (ram m) -> Forall is_byte (ram m')).
Proof.
  induction ws as [| [a v] ws IH]; intros m Hm; simpl.
  - eauto.
  - destruct (write_defined m a v Hm) as (m1 & -> & Hm1 & Hrom1 & Hb1). simpl.
    destruct (IH m1 Hm1) as (m2 & -> & Hm2 & Hrom2 & Hb2).
    exists m2. repeat split; auto. congruence.
Qed.

(** ** C1: totality of [read] *)

(** Away from the empty ROM buffer [read] is total and returns a byte; the
    unmapped window reads as 0 ([read_unmapped]). *)
Lemma read_total_nonempty_rom (m : Memory) (a : Z) :
  ram_sized m -> Forall is_byte (ram m) -> Forall is_byte (prg_rom m) ->
  prg_rom m <> [] ->
  exists v, read m a = Ok v /\ is_byte v.
Proof.
  intros Hm Hram Hrom Hne.
  destruct (read_defined m a Hm (or_introl Hne)) as [v Hv].
  exists v. split; [exact Hv | eapply read_byte; eauto].
Qed.

(** C1 (failing input).  With a PRG-ROM buffer of length zero the modulo in
    [read] divides by zero: every address from 0x8000 up raises
    [ZeroDivisionError] instead of returning a byte.  The loader yields
    such a buffer for a header that declares zero PRG banks, and the
    constructor of [CPU] then raises while fetching the reset vector. *)
Theorem read_empty_rom_raises :
  read (Memory_init []) 0x8000 = Raise ZeroDivisionError
  /\ read (Memory_init []) 0xFFFF = Raise ZeroDivisionError
  /\ EMUNESV0.load_ines_rom
       [0x4E; 0x45; 0x53; 0x1A; 0; 0; 0; 0; 0; 0; 0; 0; 0; 0; 0; 0] = Ok ([], [])
  /\ EMUNESV0.CPU_init (Memory_init []) = Raise ZeroDivisionError.
Proof. vm_compute. repeat split. Qed.

(** ** C2: RAM mirroring *)

Lemma ram_mirror_index (a k : Z) :
  (a + k * 0x800) mod RAM_SIZE = (a mod 0x800) mod RAM_SIZE.
Proof.
  unfold RAM_SIZE. rewrite Z.mod_add by lia. rewrite Z.mod_mod by lia.
  reflexivity.
Qed.

(** C2 (counterexample).  With a = 0x1800 and k = 1 the address
    a + k*0x800 = 0x2000 leaves the RAM window and reads 0, while
    a mod 0x800 = 0 reads the cell written before. *)
Lemma ram_mirroring_counterexample :
  (let* m := write (Memory_init [0xEA]) 0 5 in read m (0x1800 + 1 * 0x800)) = Ok 0
  /\ (let* m := write (Memory_init [0xEA]) 0 5 in read m (0x1800 mod 0x800)) = Ok 5.
Proof. vm_compute. split; reflexivity. Qed.

(** C2 (amended).  For every address a in [0, 0x2000) and every k in
    {0,1,2,3} such that a + k*0x800 is still below 0x2000, reading
    a + k*0x800 returns the same value as reading a mod 0x800, in the
    freshly built memory and after any sequence of writes. *)
Theorem ram_mirroring (prg : list Z) (ws : list (Z * Z)) (a k : Z) :
  0 <= a < 0x2000 -> 0 <= k <= 3 -> a + k * 0x800 < 0x2000 ->
  exists m v, writes (Memory_init prg) ws = Ok m
              /\ read m (a + k * 0x800) = Ok v
              /\ read m (a mod 0x800) = Ok v.
Proof.
  intros Ha Hk Hlim.
  destruct (writes_defined ws (Memory_init prg) (Memory_init_sized prg))
    as (m & Hws & Hm & _).
  assert (Hlow : a mod 0x800 < 0x2000).
  { pose proof (Z.mod_pos_bound a 0x800). lia. }
  destruct (read_ram m (a + k * 0x800) Hm Hlim) as (v & Hv & Hr).
  destruct (read_ram m (a mod 0x800) Hm Hlow) as (v' & Hv' & Hr').
  rewrite ram_mirror_index in Hv. rewrite Hv in Hv'. injection Hv' as <-.
  exists m, v. auto.
Qed.

Lemma ram_mirroring_witness :
  exists m v, writes (Memory_init [0xEA]) [(1, 0x1FF)] = Ok m
              /\ read m (1 + 3 * 0x800) = Ok v
              /\ read m (1 mod 0x800) = Ok v.
Proof. apply (ram_mirroring [0xEA] [(1, 0x1FF)] 1 3); lia. Defined.

(** ** C10: the cells of the work RAM are bytes *)

(** C10.  [write] stores [value mod 256] whatever the value argument is, so
    from zero-initialisation through any sequence of writes the work RAM
    keeps its 2048 cells, each in [0, 255]; reading does not change the
    memory ([read] returns a value only). *)
Theorem ram_cells_are_bytes (prg : list Z) (ws : list (Z * Z)) :
  exists m, writes (Memory_init prg) ws = Ok m
            /\ Py.len (ram m) = 0x800
            /\ Forall is_byte (ram m)
            /\ forall a v, exists m',
                 write m a v = Ok m'
                 /\ (a < 0x2000 ->
                     ram m' !! Z.to_nat (a mod 0x800) = Some (v mod 256)
                     /\ read m' a = Ok (v mod 256)).
Proof.
  destruct (writes_defined ws (Memory_init prg) (Memory_init_sized prg))
    as (m & Hws & Hm & _ & Hb).
  exists m. split; [exact Hws |]. split; [exact Hm |].
  split; [apply Hb, Memory_init_bytes |].
  intros a v. destruct (write_defined m a v Hm) as (m' & Hw & Hm' & _).
  exists m'. split; [exact Hw |]. intros Ha.
  rewrite write_ram in Hw by assumption. injection Hw as <-.
  assert (Hcell : <[Z.to_nat (a mod RAM_SIZE) := Z.land v 0xFF]> (ram m)
                    !! Z.to_nat (a mod RAM_SIZE) = Some (v mod 256)).
  { rewrite list_lookup_insert_eq.
    - rewrite land_255. reflexivity.
    - pose proof (ram_index_in_range m a Hm). unfold Py.len in *. lia. }
  split; [exact Hcell |].
  destruct (read_ram _ a Hm' Ha) as (v' & Hv' & Hr).
  cbn [ram] in Hv'. rewrite Hcell in Hv'. injection Hv' as <-. exact Hr.
Qed.

(** ** Bits of the status byte *)

Lemma land_pow2 (s i : Z) :
  0 <= i -> Z.land s (2 ^ i) = if Z.testbit s i then 2 ^ i else 0.
Proof.
  intros Hi. apply Z.bits_inj'. intros j Hj.
  rewrite Z.land_spec, Z.pow2_bits_eqb by assumption.
  destruct (Z.eqb_spec i j) as [-> | Hne].
  - destruct (Z.testbit s j); simpl.
    + rewrite Z.pow2_bits_true by assumption. reflexivity.
    + rewrite Z.bits_0. reflexivity.
  - rewrite andb_false_r. destruct (Z.testbit s i).
    + rewrite Z.pow2_bits_false by assumption. reflexivity.
    + rewrite Z.bits_0. reflexivity.
Qed.

Lemma truthy_land_pow2 (s i : Z) :
  0 <= i -> Py.truthy (Z.land s (2 ^ i)) = Z.testbit s i.
Proof.
  intros Hi. unfold Py.truthy. rewrite land_pow2 by assumption.
  destruct (Z.testbit s i).
  - assert (0 < 2 ^ i) by (apply Z.pow_pos_nonneg; lia).
    destruct (Z.eqb_spec (2 ^ i) 0); [lia | reflexivity].
  - reflexivity.
Qed.

Lemma get_flag_pow2 (c : CPU) (i : Z) :
  0 <= i -> get_flag c (2 ^ i) = Z.testbit (status c) i.
Proof. intros Hi. apply (truthy_land_pow2 (status c) i Hi). Qed.

Lemma set_flag_bits (c : CPU) (i j : Z) (b : bool) :
  0 <= i -> 0 <= j ->
  Z.testbit (status (set_flag c (2 ^ i) b)) j =
    if i =? j then b else Z.testbit (status c) j.
Proof.
  intros Hi Hj. unfold set_flag. destruct b; cbn [status with_status].
  - rewrite Z.lor_spec, Z.pow2_bits_eqb by assumption.
    destruct (i =? j); [apply orb_true_r | apply orb_false_r].
  - rewrite Z.land_spec, Z.lnot_spec, Z.pow2_bits_eqb by assumption.
    destruct (i =? j); [apply andb_false_r | apply andb_true_r].
Qed.

Lemma set_flag_fields (c : CPU) (flag : Z) (b : bool) :
  memory (set_flag c flag b) = memory c /\ PC (set_flag c flag b) = PC c
  /\ A (set_flag c flag b) = A c /\ X (set_flag c flag b) = X c
  /\ Y (set_flag c flag b) = Y c /\ SP (set_flag c flag b) = SP c.
Proof. unfold set_flag. destruct b; cbn; repeat split. Qed.

Lemma update_zn_fields (c : CPU) (r : Z) :
  memory (update_zn c r) = memory c /\ PC (update_zn c r) = PC c
  /\ A (update_zn c r) = A c /\ X (update_zn c r) = X c
  /\ Y (update_zn c r) = Y c /\ SP (update_zn c r) = SP c.
Proof.
  unfold update_zn.
  destruct (set_flag_fields (set_flag c 0x02 (r =? 0)) 0x80
              (Py.truthy (Z.land r 0x80))) as (-> & -> & -> & -> & -> & ->).
  apply set_flag_fields.
Qed.

Lemma update_zn_bits (c : CPU) (r j : Z) :
  0 <= j ->
  Z.testbit (status (update_zn c r)) j =
    if j =? 7 then Z.testbit r 7
    else if j =? 1 then (r =? 0)
    else Z.testbit (status c) j.
Proof.
  intros Hj. unfold update_zn.
  change 0x80 with (2 ^ 7). change 0x02 with (2 ^ 1).
  rewrite set_flag_bits by lia. rewrite set_flag_bits by lia.
  rewrite truthy_land_pow2 by lia.
  rewrite (Z.eqb_sym 7 j), (Z.eqb_sym 1 j). reflexivity.
Qed.

(** The flag rule, for whatever state the two updates start from. *)
Lemma update_zn_flags (c0 c : CPU) (r : Z) :
  status c = status c0 -> flags_follow c0 (update_zn c r) r.
Proof.
  intros Hst. unfold flags_follow.
  change 0x02 with (2 ^ 1). change 0x80 with (2 ^ 7).
  rewrite !get_flag_pow2 by lia. rewrite !update_zn_bits by lia.
  split; [reflexivity |]. split; [reflexivity |].
  intros i H1 H7. destruct (Z.lt_ge_cases i 0) as [Hneg | Hpos].
  - rewrite !Z.testbit_neg_r by assumption. reflexivity.
  - rewrite update_zn_bits by assumption.
    destruct (Z.eqb_spec i 7); [lia |]. destruct (Z.eqb_spec i 1); [lia |].
    rewrite Hst. reflexivity.
Qed.

(** ** One instruction at a time *)

Lemma pc_succ (pc : Z) :
  Z.land (Z.land (pc + 1) 0xFFFF + 1) 0xFFFF = (pc + 2) mod 0x10000.
Proof.
  rewrite !land_65535. rewrite Z.add_mod_idemp_l by lia.
  f_equal. lia.
Qed.

Lemma pc_succ_succ (pc : Z) :
  Z.land (Z.land (pc + 1) 0xFFFF + 2) 0xFFFF = (pc + 3) mod 0x10000.
Proof.
  rewrite !land_65535. rewrite Z.add_mod_idemp_l by lia.
  f_equal. lia.
Qed.

Section Step.

Variable c : CPU.
Variable op : Z.
Hypothesis Hfetch : read (memory c) (PC c) = Ok op.

Let pc1 : Z := (PC c + 1) mod 0x10000.
Let pc2 : Z := (PC c + 2) mod 0x10000.
Let pc3 : Z := (PC c + 3) mod 0x10000.

Lemma step_LDA (v : Z) :
  op = 0xA9 -> read (memory c) pc1 = Ok v ->
  EMUNESV0.step c = Ok (update_zn (with_A (with_PC c pc2) v) v).
Proof.
  intros -> Hv. unfold EMUNESV0.step. rewrite Hfetch. cbn.
  rewrite land_65535. fold pc1. rewrite Hv. cbn.
  unfold pc1. rewrite <- land_65535, pc_succ. fold pc2.
  unfold update_zn. destruct (v =? 0); reflexivity.
Qed.

Lemma step_LDX (v : Z) :
  op = 0xA2 -> read (memory c) pc1 = Ok v ->
  EMUNESV0.step c = Ok (update_zn (with_X (with_PC c pc2) v) v).
Proof.
  intros -> Hv. unfold EMUNESV0.step. rewrite Hfetch. cbn.
  rewrite land_65535. fold pc1. rewrite Hv. cbn.
  unfold pc1. rewrite <- land_65535, pc_succ. fold pc2.
  unfold update_zn. destruct (v =? 0); reflexivity.
Qed.

Lemma step_LDY (v : Z) :
  op = 0xA0 -> read (memory c) pc1 = Ok v ->
  EMUNESV0.step c = Ok (update_zn (with_Y (with_PC c pc2) v) v).
Proof.
  intros -> Hv. unfold EMUNESV0.step. rewrite Hfetch. cbn.
  rewrite land_65535. fold pc1. rewrite Hv. cbn.
  unfold pc1. rewrite <- land_65535, pc_succ. fold pc2.
  unfold update_zn. destruct (v =? 0); reflexivity.
Qed.

Lemma step_STA (lo hi : Z) (m' : Memory) :
  op = 0x8D -> read (memory c) pc1 = Ok lo -> read (memory c) pc2 = Ok hi ->
  write (memory c) (Z.lor lo (Z.shiftl hi 8)) (A c) = Ok m' ->
  EMUNESV0.step c = Ok (with_memory (with_PC c pc3) m').
Proof.
  intros -> Hlo Hhi Hw. unfold EMUNESV0.step. rewrite Hfetch. cbn.
  rewrite pc_succ, pc_succ_succ. rewrite land_65535.
  fold pc1 pc2 pc3. rewrite Hlo. cbn. rewrite Hhi. cbn. rewrite Hw. reflexivity.
Qed.

Lemma step_JMP (lo hi : Z) :
  op = 0x4C -> read (memory c) pc1 = Ok lo -> read (memory c) pc2 = Ok hi ->
  EMUNESV0.step c = Ok (with_PC c (Z.lor lo (Z.shiftl hi 8))).
Proof.
  intros -> Hlo Hhi. unfold EMUNESV0.step. rewrite Hfetch. cbn.
  rewrite pc_succ. rewrite land_65535.
  fold pc1 pc2. rewrite Hlo. cbn. rewrite Hhi. reflexivity.
Qed.

Lemma step_INX :
  op = 0xE8 ->
  EMUNESV0.step c =
    Ok (update_zn (with_X (with_PC c pc1) ((X c + 1) mod 256))
          ((X c + 1) mod 256)).
Proof.
  intros ->. unfold EMUNESV0.step. rewrite Hfetch. cbn.
  rewrite land_65535, land_255. fold pc1.
  unfold update_zn. destruct (_ mod 256 =? 0); reflexivity.
Qed.

Lemma step_DEX :
  op = 0xCA ->
  EMUNESV0.step c =
    Ok (update_zn (with_X (with_PC c pc1) ((X c - 1) mod 256))
          ((X c - 1) mod 256)).
Proof.
  intros ->. unfold EMUNESV0.step. rewrite Hfetch. cbn.
  rewrite land_65535, land_255. fold pc1.
  unfold update_zn. destruct (_ mod 256 =? 0); reflexivity.
Qed.

(** NOP, BRK and every opcode outside the decode table. *)
Lemma step_inert :
  op = 0xEA \/ op = 0x00 \/ ~ In op decode_table ->
  EMUNESV0.step c = Ok (with_PC c pc1).
Proof.
  intros Hop. unfold EMUNESV0.step. rewrite Hfetch. cbn [bind].
  rewrite land_65535. fold pc1.
  destruct Hop as [-> | [-> | Hout]]; [reflexivity | reflexivity |].
  unfold decode_table in Hout. cbn [In] in Hout.
  zcmp; try reflexivity; exfalso; apply Hout; auto 12.
Qed.

End Step.

Section StepAI.

Variable c : CPU.
Variable op : Z.
Hypothesis Hfetch : read (memory c) (PC c) = Ok op.

Let pc1 : Z := (PC c + 1) mod 0x10000.
Let pc2 : Z := (PC c + 2) mod 0x10000.
Let pc3 : Z := (PC c + 3) mod 0x10000.




(** Everything but LDA, STA and JMP only moves the program counter. *)
Lemma ai_step_inert :
  op <> 0xA9 -> op <> 0x8D -> op <> 0x4C ->
  EMUAI4K.step c = Ok (with_PC c pc1).
Proof.
  intros H1 H2 H3. unfold EMUAI4K.step. rewrite Hfetch. cbn [bind].
  rewrite land_65535. fold pc1. zcmp; try reflexivity; contradiction.
Qed.

End StepAI.

(** A fetched opcode other than 0 comes from RAM or from a non-empty ROM,
    so the operand bytes that follow it can be read as well. *)
Lemma operand_defined (m : Memory) (pc op a : Z) :
  ram_sized m -> read m pc = Ok op -> op <> 0 -> a <= pc + 2 ->
  exists v, read m a = Ok v.
Proof.
  intros Hm Hfetch Hop Ha. apply read_defined; [exact Hm |].
  destruct (prg_rom m) eqn:Hrom; [right | left; discriminate].
  destruct (Z.lt_ge_cases pc 0x2000) as [Hlo | Hlo]; [lia |].
  destruct (Z.lt_ge_cases pc 0x8000) as [Hhi | Hhi].
  - rewrite read_unmapped in Hfetch by lia. congruence.
  - rewrite read_empty_rom in Hfetch by assumption. discriminate.
Qed.

Lemma pc_wrap_le (pc d : Z) : 0 <= pc -> 0 <= d -> (pc + d) mod 0x10000 <= pc + d.
Proof. intros Hpc Hd. apply Z.mod_le; lia. Qed.

Lemma inert_opcode (op : Z) :
  op <> 0xA9 -> op <> 0xA2 -> op <> 0xA0 -> op <> 0x8D -> op <> 0x4C ->
  op <> 0xE8 -> op <> 0xCA ->
  op = 0xEA \/ op = 0x00 \/ ~ In op decode_table.
Proof.
  intros. destruct (Z.eq_dec op 0xEA); [auto |].
  destruct (Z.eq_dec op 0x00); [auto |].
  right; right. unfold decode_table. cbn [In]. intuition congruence.
Qed.

(** [CPU.__init__] over the example banks gives [boot]. *)
Lemma CPU_init_boot :
  EMUNESV0.CPU_init (Memory_init demo_bank) = Ok (boot demo_bank)
  /\ EMUNESV0.CPU_init (Memory_init ldx_bank) = Ok (boot ldx_bank)
  /\ EMUAI4K.CPU_init (Memory_init ldx_bank) = Ok (boot ldx_bank)
  /\ EMUNESV0.CPU_init (Memory_init (bank_with [0xFF])) = Ok (boot (bank_with [0xFF]))
  /\ EMUAI4K.CPU_init (Memory_init (bank_with [0xFF])) = Ok (boot (bank_with [0xFF])).
Proof. vm_compute. repeat split. Qed.

(** ** C3: the PC advance law *)






(** The case the law leaves out.  With JMP at 0xFFFE, its low operand byte
    at 0xFFFF and zeroed RAM, [EMUAI4K.py] reads the high byte at 0x10000,
    which [read] maps to the first ROM byte (here the opcode 0x4C itself),
    where [EMUNESV0.py] wraps to RAM cell 0: the two files jump to 0x4C34
    and to 0x0034.  It is the mask missing from [EMUAI4K.read_word] as
    well. *)
Lemma ai_jmp_unwrapped :
  (let* c' := EMUAI4K.step
                (mkCPU (Memory_init [0x4C; 0x34]) 0xFFFE 0 0 0 0xFD 0x24) in
   Ok (PC c')) = Ok 0x4C34
  /\ (let* c' := EMUNESV0.step
                   (mkCPU (Memory_init [0x4C; 0x34]) 0xFFFE 0 0 0 0xFD 0x24) in
      Ok (PC c')) = Ok 0x0034.
Proof. vm_compute. split; reflexivity. Qed.

(** ** C5: flag correctness *)

(** C5.  After a [step] of [EMUNESV0.py] that executes LDA, LDX or LDY the
    register holds the operand byte, whatever it is, and after INX or DEX
    the register X holds its old value plus or minus one mod 256; in each
    case Zero (mask 0x02) is set iff that register is 0, Negative
    (mask 0x80) equals bit 7 of that register, and no other bit of the
    status byte changes. *)
Theorem flag_correctness (c : CPU) (op : Z) :
  ram_sized (memory c) -> 0 <= PC c < 0x10000 ->
  read (memory c) (PC c) = Ok op ->
  In op [0xA9; 0xA2; 0xA0; 0xE8; 0xCA] ->
  exists c', EMUNESV0.step c = Ok c' /\ flag_law c op c'.
Proof.
  intros Hm Hpc Hfetch Hop.
  assert (Hnz : op <> 0) by (cbn [In] in Hop; lia).
  assert (Hrd : exists v, read (memory c) ((PC c + 1) mod 0x10000) = Ok v).
  { apply (operand_defined _ (PC c) op); auto.
    pose proof (pc_wrap_le (PC c) 1). lia. }
  destruct Hrd as [v Hv]. unfold flag_law.
  cbn [In] in Hop. destruct Hop as [<- | [<- | [<- | [<- | [<- | []]]]]].
  - eexists. split; [eapply step_LDA; eauto |].
    destruct (update_zn_fields (with_A (with_PC c ((PC c + 2) mod 65536)) v) v)
      as (_ & _ & -> & _).
    flag_cases; split; [exact Hv | apply update_zn_flags; reflexivity].
  - eexists. split; [eapply step_LDX; eauto |].
    destruct (update_zn_fields (with_X (with_PC c ((PC c + 2) mod 65536)) v) v)
      as (_ & _ & _ & -> & _).
    flag_cases; split; [exact Hv | apply update_zn_flags; reflexivity].
  - eexists. split; [eapply step_LDY; eauto |].
    destruct (update_zn_fields (with_Y (with_PC c ((PC c + 2) mod 65536)) v) v)
      as (_ & _ & _ & _ & -> & _).
    flag_cases; split; [exact Hv | apply update_zn_flags; reflexivity].
  - eexists. split; [eapply step_INX; eauto |].
    destruct (update_zn_fields
                (with_X (with_PC c ((PC c + 1) mod 65536)) ((X c + 1) mod 256))
                ((X c + 1) mod 256)) as (_ & _ & _ & -> & _).
    flag_cases; split; [reflexivity | apply update_zn_flags; reflexivity].
  - eexists. split; [eapply step_DEX; eauto |].
    destruct (update_zn_fields
                (with_X (with_PC c ((PC c + 1) mod 65536)) ((X c - 1) mod 256))
                ((X c - 1) mod 256)) as (_ & _ & _ & -> & _).
    flag_cases; split; [reflexivity | apply update_zn_flags; reflexivity].
Qed.

Lemma flag_correctness_witness :
  exists c', EMUNESV0.step (boot ldx_bank) = Ok c'
             /\ flag_law (boot ldx_bank) 0xA2 c'.
Proof.
  apply (flag_correctness (boot ldx_bank) 0xA2).
  - vm_compute. reflexivity.
  - cbn. lia.
  - vm_compute. reflexivity.
  - cbn. auto.
Defined.

(** ** C6: unimplemented opcodes *)

Lemma with_PC_only (c : CPU) (pc : Z) : only_PC_changed c (with_PC c pc) pc.
Proof. unfold only_PC_changed. cbn. repeat split. Qed.

(** C6.  When [step] fetches BRK (0x00) or an opcode outside the decode
    table it raises nothing and behaves as a NOP: A, X, Y, SP, the status
    byte, RAM and ROM are unchanged and PC advances by exactly 1
    (mod 0x10000).  This holds for the interpreter of [EMUNESV0.py] and for
    the one of [EMUAI4K.py]. *)
Theorem unimplemented_opcode_is_nop (c : CPU) (op : Z) :
  read (memory c) (PC c) = Ok op ->
  op = 0x00 \/ ~ In op decode_table ->
  (exists c', EMUNESV0.step c = Ok c'
              /\ only_PC_changed c c' ((PC c + 1) mod 0x10000))
  /\ (exists c', EMUAI4K.step c = Ok c'
                 /\ only_PC_changed c c' ((PC c + 1) mod 0x10000)).
Proof.
  intros Hfetch Hop. split.
  - exists (with_PC c ((PC c + 1) mod 0x10000)). split; [| apply with_PC_only].
    apply (step_inert c op Hfetch). tauto.
  - exists (with_PC c ((PC c + 1) mod 0x10000)). split; [| apply with_PC_only].
    apply (ai_step_inert c op Hfetch);
      destruct Hop as [-> | Hout]; try discriminate;
      intros ->; apply Hout; unfold decode_table; cbn [In]; auto 12.
Qed.

Lemma unimplemented_opcode_is_nop_witness :
  (exists c', EMUNESV0.step (boot (bank_with [0xFF])) = Ok c'
              /\ only_PC_changed (boot (bank_with [0xFF])) c'
                   ((PC (boot (bank_with [0xFF])) + 1) mod 0x10000))
  /\ (exists c', EMUAI4K.step (boot (bank_with [0xFF])) = Ok c'
                 /\ only_PC_changed (boot (bank_with [0xFF])) c'
                      ((PC (boot (bank_with [0xFF])) + 1) mod 0x10000)).
Proof.
  apply (unimplemented_opcode_is_nop (boot (bank_with [0xFF])) 0xFF).
  - vm_compute. reflexivity.
  - right. unfold decode_table. cbn [In]. lia.
Defined.

(** ** C4: little-endian word fetch *)

(** In [EMUNESV0.py] the word fetch is the little-endian word of the two
    bytes at [a] and [(a+1) mod 0x10000], at every address. *)
Lemma read_word_little_endian (m : Memory) (a : Z) :
  EMUNESV0.read_word m a = little_endian_word m a.
Proof.
  unfold EMUNESV0.read_word, little_endian_word. rewrite land_65535.
  destruct (read m a) as [lo |]; cbn [bind]; [| reflexivity].
  destruct (read m ((a + 1) mod 0x10000)) as [hi |]; cbn [bind]; [| reflexivity].
  rewrite Z.lor_comm. reflexivity.
Qed.

(** Away from the last address [EMUAI4K.py] agrees. *)
Lemma ai_read_word_little_endian (m : Memory) (a : Z) :
  0 <= a < 0xFFFF -> EMUAI4K.read_word m a = little_endian_word m a.
Proof.
  intros Ha. unfold EMUAI4K.read_word, little_endian_word.
  rewrite (Z.mod_small (a + 1)) by lia.
  destruct (read m a) as [lo |]; cbn [bind]; [| reflexivity].
  destruct (read m (a + 1)) as [hi |]; cbn [bind]; [| reflexivity].
  rewrite Z.lor_comm. reflexivity.
Qed.

(** The reset vector: bytes 0x34, 0x12 at 0xFFFC, 0xFFFD give PC = 0x1234,
    in both files. *)
Lemma reset_vector (m : Memory) :
  read m 0xFFFC = Ok 0x34 -> read m 0xFFFD = Ok 0x12 ->
  (exists c, EMUNESV0.CPU_init m = Ok c /\ PC c = 0x1234)
  /\ (exists c, EMUAI4K.CPU_init m = Ok c /\ PC c = 0x1234).
Proof.
  intros Hlo Hhi. split.
  - unfold EMUNESV0.CPU_init, EMUNESV0.read_word.
    change (Z.land (0xFFFC + 1) 0xFFFF) with 0xFFFD.
    rewrite Hlo, Hhi. cbn. eauto.
  - unfold EMUAI4K.CPU_init, EMUAI4K.read_word.
    change (0xFFFC + 1) with 0xFFFD.
    rewrite Hlo, Hhi. cbn. eauto.
Qed.

(** C4 (failing input).  [EMUAI4K.py] reads the high byte at [address + 1]
    without the [& 0xFFFF] that [EMUNESV0.py] applies.  At address 0xFFFF,
    over a fresh memory with an all-NOP 16 KiB bank, it reads the high
    byte at 0x10000, which falls into the ROM window (0xEA), instead of at
    0, which is RAM (0): the word is 0xEAEA where the claim, and
    [EMUNESV0.py], give 0x00EA. *)
Theorem read_word_unwrapped :
  EMUAI4K.read_word (Memory_init nop_bank) 0xFFFF = Ok 0xEAEA
  /\ little_endian_word (Memory_init nop_bank) 0xFFFF = Ok 0x00EA
  /\ EMUNESV0.read_word (Memory_init nop_bank) 0xFFFF = Ok 0x00EA.
Proof. vm_compute. repeat split. Qed.

(** ** C7: the iNES loader *)

(** [load_ines_rom] rejects every buffer whose first four bytes, or fewer
    when it is shorter, are not the signature. *)
Lemma load_ines_rom_bad_signature (file : list Z) :
  take 4 file <> ines_signature ->
  EMUNESV0.load_ines_rom file = Raise ValueError.
Proof.
  intros Hsig. unfold EMUNESV0.load_ines_rom, Py.file_read, Py.slice0, Py.bytes_eqb.
  rewrite take_take. change (Z.to_nat 4 `min` Z.to_nat 16)%nat with 4%nat.
  rewrite bool_decide_eq_false_2 by exact Hsig. reflexivity.
Qed.

(** What [load_ines_rom] returns for a buffer with a full header that
    starts with the signature: the trainer is skipped exactly when bit 2 of
    header byte 6 is set. *)
Lemma load_ines_rom_accepts (p q f6 : Z) (rest body : list Z) :
  length rest = 9%nat ->
  EMUNESV0.load_ines_rom (ines_signature ++ [p; q; f6] ++ rest ++ body) =
    let body' := if Py.truthy (Z.land f6 0x04) then drop 512 body else body in
    Ok (take (Z.to_nat (p * 16 * 1024)) body',
        if q * 8 * 1024 >? 0
        then take (Z.to_nat (q * 8 * 1024)) (drop (Z.to_nat (p * 16 * 1024)) body')
        else []).
Proof.
  intros Hrest.
  do 10 (destruct rest as [| ? rest]; try discriminate Hrest). clear Hrest.
  unfold EMUNESV0.load_ines_rom, Py.file_read, ines_signature.
  match goal with
  | |- context [take (Z.to_nat 16) ?file] =>
      change (take (Z.to_nat 16) file) with (take 16 file);
      change (drop (Z.to_nat 16) file) with (drop 16 file)
  end.
  cbn [app take drop].
  match goal with
  | |- context [Py.bytes_eqb ?a ?b] => change (Py.bytes_eqb a b) with true
  end.
  cbn [negb].
  match goal with
  | |- context [Py.getitem ?h 4] =>
      change (Py.getitem h 4) with (Ok p);
      change (Py.getitem h 5) with (Ok q);
      change (Py.getitem h 6) with (Ok f6)
  end.
  cbn [bind]. change (Z.to_nat 512) with 512%nat.
  destruct (Py.truthy (Z.land f6 4)); reflexivity.
Qed.

(** On [EMUNESV0.py] the claim holds: one PRG bank, one CHR bank, no
    trainer, followed by 16384 and 8192 bytes, gives those two buffers. *)
Lemma load_ines_rom_one_bank (rest prg chr : list Z) :
  length rest = 9%nat -> Py.len prg = 16384 -> Py.len chr = 8192 ->
  EMUNESV0.load_ines_rom (ines_signature ++ [1; 1; 0] ++ rest ++ prg ++ chr)
    = Ok (prg, chr).
Proof.
  intros Hrest Hprg Hchr. rewrite load_ines_rom_accepts by exact Hrest.
  unfold Py.len in *.
  change (Py.truthy (Z.land 0 4)) with false. cbv zeta iota.
  change (1 * 16 * 1024) with 16384. change (1 * 8 * 1024) with 8192.
  change (8192 >? 0) with true. cbv iota.
  rewrite take_app_length' by lia. rewrite drop_app_length' by lia.
  rewrite take_ge by lia. reflexivity.
Qed.

(** C7 (failing input).  The loader inlined in [EmulatorApp.__init__] of
    [EMUAI4K.py] tests no signature and skips no trainer.  A buffer whose
    first four bytes are zero, with one PRG and one CHR bank declared, is
    loaded without any error where [load_ines_rom] raises [ValueError]; and
    with the trainer flag set the 512 trainer bytes (0x77 here) end up at
    the start of the PRG buffer. *)
Theorem inline_loader_does_not_validate :
  EMUAI4K.load_rom
    (ines_header [0; 0; 0; 0] 1 1 0
       ++ replicate (Z.to_nat 16384) 0xEA ++ replicate (Z.to_nat 8192) 0x55)
  = Ok (replicate (Z.to_nat 16384) 0xEA, replicate (Z.to_nat 8192) 0x55)
  /\ EMUNESV0.load_ines_rom
       (ines_header [0; 0; 0; 0] 1 1 0
          ++ replicate (Z.to_nat 16384) 0xEA ++ replicate (Z.to_nat 8192) 0x55)
     = Raise ValueError
  /\ EMUAI4K.load_rom
       (ines_header ines_signature 1 1 0x04 ++ replicate (Z.to_nat 512) 0x77
          ++ replicate (Z.to_nat 16384) 0xEA ++ replicate (Z.to_nat 8192) 0x55)
     = Ok (replicate (Z.to_nat 512) 0x77 ++ replicate (Z.to_nat (16384 - 512)) 0xEA,
           replicate (Z.to_nat 512) 0xEA ++ replicate (Z.to_nat (8192 - 512)) 0x55)
  /\ EMUNESV0.load_ines_rom
       (ines_header ines_signature 1 1 0x04 ++ replicate (Z.to_nat 512) 0x77
          ++ replicate (Z.to_nat 16384) 0xEA ++ replicate (Z.to_nat 8192) 0x55)
     = Ok (replicate (Z.to_nat 16384) 0xEA, replicate (Z.to_nat 8192) 0x55).
Proof. vm_compute. repeat split. Qed.

(** ** Reads after a write *)

Lemma write_prg_rom (m m' : Memory) (a v : Z) :
  write m a v = Ok m' -> prg_rom m' = prg_rom m.
Proof.
  unfold write. destruct (a <? 0x2000).
  - destruct (Py.setitem _ _ _) as [r |]; cbn [bind]; [| discriminate].
    intros [= <-]. reflexivity.
  - intros [= <-]. reflexivity.
Qed.

(** A write never changes what is read from 0x2000 up. *)
Lemma read_after_write_high (m m' : Memory) (w v a : Z) :
  write m w v = Ok m' -> 0x2000 <= a -> read m' a = read m a.
Proof.
  intros Hw Ha. unfold read. rewrite (write_prg_rom m m' w v Hw).
  destruct (Z.ltb_spec a 0x2000); [lia | reflexivity].
Qed.

Lemma read_after_write_same (m m' : Memory) (a v : Z) :
  ram_sized m -> a < 0x2000 -> write m a v = Ok m' ->
  read m' a = Ok (v mod 256).
Proof.
  intros Hm Ha Hw. rewrite write_ram in Hw by assumption. injection Hw as <-.
  unfold read. destruct (Z.ltb_spec a 0x2000); [| lia]. cbn [ram].
  assert (Hin : 0 <= a mod RAM_SIZE < Py.len (ram m))
    by (apply ram_index_in_range, Hm).
  unfold Py.getitem. rewrite position_in_range.
  - cbn [bind]. rewrite list_lookup_insert_eq.
    + rewrite land_255. reflexivity.
    + unfold Py.len in Hin. lia.
  - unfold Py.len in *. rewrite length_insert. exact Hin.
Qed.

(** ** C8: the end-to-end scenario *)

Lemma program_at_cons (m : Memory) (base b : Z) (rest : list Z) :
  program_at m base (b :: rest) = true ->
  read m base = Ok b /\ program_at m (base + 1) rest = true.
Proof.
  cbn [program_at]. rewrite andb_true_iff. intros [Hb Hrest].
  split; [| exact Hrest].
  destruct (read m base) as [v |]; [| discriminate].
  apply Z.eqb_eq in Hb. congruence.
Qed.

Lemma CPU_init_inv (m : Memory) (c : CPU) :
  EMUNESV0.CPU_init m = Ok c ->
  c = mkCPU m (PC c) 0 0 0 0xFD 0x24
  /\ EMUNESV0.read_word m 0xFFFC = Ok (PC c).
Proof.
  unfold EMUNESV0.CPU_init.
  destruct (EMUNESV0.read_word m 0xFFFC) as [pc |]; cbn [bind]; [| discriminate].
  intros [= <-]. split; reflexivity.
Qed.

(** C8.  Over a memory where the bytes A9 05 8D 00 02 4C 00 80 are read
    from 0x8000 on and whose reset vector gives PC = 0x8000, three calls of
    [step] after construction leave A = 5, read(0x0200) = 5 and
    PC = 0x8000. *)
Theorem end_to_end_scenario (m : Memory) (c0 : CPU) :
  ram_sized m ->
  program_at m 0x8000 [0xA9; 0x05; 0x8D; 0x00; 0x02; 0x4C; 0x00; 0x80] = true ->
  EMUNESV0.CPU_init m = Ok c0 -> PC c0 = 0x8000 ->
  exists c3, EMUNESV0.steps 3 c0 = Ok c3
             /\ A c3 = 5 /\ read (memory c3) 0x0200 = Ok 5 /\ PC c3 = 0x8000.
Proof.
  intros Hm Hprog Hinit Hpc.
  apply CPU_init_inv in Hinit. destruct Hinit as [Hc0 _].
  rewrite Hpc in Hc0. clear Hpc. subst c0.
  apply program_at_cons in Hprog. destruct Hprog as [H0 Hprog].
  apply program_at_cons in Hprog. destruct Hprog as [H1 Hprog].
  apply program_at_cons in Hprog. destruct Hprog as [H2 Hprog].
  apply program_at_cons in Hprog. destruct Hprog as [H3 Hprog].
  apply program_at_cons in Hprog. destruct Hprog as [H4 Hprog].
  apply program_at_cons in Hprog. destruct Hprog as [H5 Hprog].
  apply program_at_cons in Hprog. destruct Hprog as [H6 Hprog].
  apply program_at_cons in Hprog. destruct Hprog as [H7 _].
  cbn in H1, H2, H3, H4, H5, H6, H7.
  destruct (write_defined m 0x200 5 Hm) as (m' & Hw & Hm' & _).
  set (c0 := mkCPU m 0x8000 0 0 0 0xFD 0x24).
  set (c1 := mkCPU m 0x8002 5 0 0 0xFD 0x24).
  set (c2 := mkCPU m' 0x8005 5 0 0 0xFD 0x24).
  set (c3 := mkCPU m' 0x8000 5 0 0 0xFD 0x24).
  assert (S1 : EMUNESV0.step c0 = Ok c1).
  { exact (step_LDA c0 0xA9 H0 5 eq_refl H1). }
  assert (S2 : EMUNESV0.step c1 = Ok c2).
  { exact (step_STA c1 0x8D H2 0x00 0x02 m' eq_refl H3 H4 Hw). }
  assert (S3 : EMUNESV0.step c2 = Ok c3).
  { assert (Hhigh : forall a, 0x2000 <= a -> read m' a = read m a)
      by (intros a Ha; apply (read_after_write_high m m' 0x200 5 a Hw Ha)).
    refine (step_JMP c2 0x4C _ 0x00 0x80 eq_refl _ _).
    - change (read m' 0x8005 = Ok 0x4C). rewrite Hhigh by lia. exact H5.
    - change (read m' 0x8006 = Ok 0x00). rewrite Hhigh by lia. exact H6.
    - change (read m' 0x8007 = Ok 0x80). rewrite Hhigh by lia. exact H7. }
  exists c3. cbn [EMUNESV0.steps]. rewrite S1. cbn [bind]. rewrite S2. cbn [bind].
  rewrite S3. cbn [bind]. repeat split.
  cbn [memory c3]. apply (read_after_write_same m m' 0x200 5); [assumption | lia | assumption].
Qed.

Lemma end_to_end_scenario_witness :
  exists c3, EMUNESV0.steps 3 (boot demo_bank) = Ok c3
             /\ A c3 = 5 /\ read (memory c3) 0x0200 = Ok 5 /\ PC c3 = 0x8000.
Proof.
  apply (end_to_end_scenario (Memory_init demo_bank) (boot demo_bank)).
  - vm_compute. reflexivity.
  - vm_compute. reflexivity.
  - vm_compute. reflexivity.
  - reflexivity.
Defined.

(** ** C9: the register ranges *)

Lemma bytesb_Forall (l : list Z) : bytesb l = true -> Forall is_byte l.
Proof.
  unfold bytesb. rewrite forallb_forall, Forall_forall. intros H v Hv.
  apply is_byteb_spec, H, list_elem_of_In, Hv.
Qed.

Lemma word_range (lo hi : Z) :
  is_byte lo -> is_byte hi -> 0 <= Z.lor lo (Z.shiftl hi 8) <= 0xFFFF.
Proof.
  unfold is_byte. intros Hlo Hhi.
  rewrite Z.shiftl_mul_pow2 by lia. change (2 ^ 8) with 256.
  pose proof (Zbitwise.Z.add_lor_land lo (hi * 256)) as Hadd.
  assert (0 <= Z.land lo (hi * 256)) by (apply Z.land_nonneg; lia).
  assert (0 <= Z.lor lo (hi * 256)) by (apply Z.lor_nonneg; lia).
  lia.
Qed.

Lemma wrap_range (pc d : Z) : 0 <= (pc + d) mod 0x10000 <= 0xFFFF.
Proof. pose proof (Z.mod_pos_bound (pc + d) 0x10000). lia. Qed.

Lemma mod_256_byte (v : Z) : is_byte (v mod 256).
Proof. unfold is_byte. apply Z.mod_pos_bound. lia. Qed.

Lemma CPU_ok_with_PC (c : CPU) (pc : Z) :
  CPU_ok c -> 0 <= pc <= 0xFFFF -> CPU_ok (with_PC c pc).
Proof.
  unfold CPU_ok, regs_in_range. cbn. tauto.
Qed.

Lemma CPU_ok_with_A (c : CPU) (v : Z) : CPU_ok c -> is_byte v -> CPU_ok (with_A c v).
Proof. unfold CPU_ok, regs_in_range. cbn. tauto. Qed.

Lemma CPU_ok_with_X (c : CPU) (v : Z) : CPU_ok c -> is_byte v -> CPU_ok (with_X c v).
Proof. unfold CPU_ok, regs_in_range. cbn. tauto. Qed.

Lemma CPU_ok_with_Y (c : CPU) (v : Z) : CPU_ok c -> is_byte v -> CPU_ok (with_Y c v).
Proof. unfold CPU_ok, regs_in_range. cbn. tauto. Qed.

Lemma CPU_ok_update_zn (c : CPU) (r : Z) : CPU_ok c -> CPU_ok (update_zn c r).
Proof.
  unfold CPU_ok, regs_in_range.
  destruct (update_zn_fields c r) as (-> & -> & -> & -> & -> & _). tauto.
Qed.

Lemma CPU_ok_write (c : CPU) (m' : Memory) (a v : Z) :
  CPU_ok c -> write (memory c) a v = Ok m' -> CPU_ok (with_memory c m').
Proof.
  unfold CPU_ok, regs_in_range. cbn. intros (Hm & Hram & Hrom & Hne & Hregs) Hw.
  destruct (write_defined (memory c) a v Hm) as (m1 & Hw1 & Hm1 & Hrom1 & Hb1).
  rewrite Hw in Hw1. injection Hw1 as <-. rewrite Hrom1. auto.
Qed.

(** One [step] from a well-formed state returns a well-formed state. *)
Lemma step_ok (c : CPU) :
  CPU_ok c -> exists c', EMUNESV0.step c = Ok c' /\ CPU_ok c'.
Proof.
  intros Hok. pose proof Hok as (Hm & Hram & Hrom & Hne & _).
  assert (Hrd : forall a, exists v, read (memory c) a = Ok v /\ is_byte v).
  { intros a. apply read_total_nonempty_rom; assumption. }
  destruct (Hrd (PC c)) as (op & Hfetch & _).
  destruct (Hrd ((PC c + 1) mod 0x10000)) as (v1 & Hv1 & Hb1).
  destruct (Hrd ((PC c + 2) mod 0x10000)) as (v2 & Hv2 & Hb2).
  by_opcode op.
  - eexists. split; [eapply step_LDA; eauto |].
    apply CPU_ok_update_zn, CPU_ok_with_A, Hb1.
    apply CPU_ok_with_PC, wrap_range. exact Hok.
  - eexists. split; [eapply step_LDX; eauto |].
    apply CPU_ok_update_zn, CPU_ok_with_X, Hb1.
    apply CPU_ok_with_PC, wrap_range. exact Hok.
  - eexists. split; [eapply step_LDY; eauto |].
    apply CPU_ok_update_zn, CPU_ok_with_Y, Hb1.
    apply CPU_ok_with_PC, wrap_range. exact Hok.
  - destruct (write_defined (memory c) (Z.lor v1 (Z.shiftl v2 8)) (A c) Hm)
      as (m' & Hw & _).
    eexists. split; [eapply step_STA; eauto |].
    apply (CPU_ok_write (with_PC c ((PC c + 3) mod 0x10000)) m'
             (Z.lor v1 (Z.shiftl v2 8)) (A c)); [| exact Hw].
    apply CPU_ok_with_PC, wrap_range. exact Hok.
  - eexists. split; [eapply step_JMP; eauto |].
    apply CPU_ok_with_PC, word_range; assumption.
  - eexists. split; [eapply step_INX; eauto |].
    apply CPU_ok_update_zn, CPU_ok_with_X, mod_256_byte.
    apply CPU_ok_with_PC, wrap_range. exact Hok.
  - eexists. split; [eapply step_DEX; eauto |].
    apply CPU_ok_update_zn, CPU_ok_with_X, mod_256_byte.
    apply CPU_ok_with_PC, wrap_range. exact Hok.
  - eexists. split; [eapply step_inert; eauto using inert_opcode |].
    apply CPU_ok_with_PC, wrap_range. exact Hok.
Qed.

Lemma steps_ok (n : nat) : forall c : CPU,
  CPU_ok c -> exists c', EMUNESV0.steps n c = Ok c' /\ CPU_ok c'.
Proof.
  induction n as [| n IH]; intros c Hok; cbn [EMUNESV0.steps].
  - eauto.
  - destruct (step_ok c Hok) as (c1 & -> & Hok1). cbn [bind]. apply IH, Hok1.
Qed.

(** Construction succeeds exactly when the reset vector can be read, which
    needs a non-empty ROM, and then yields a well-formed state. *)
Lemma CPU_init_ok (m : Memory) (c0 : CPU) :
  ram_sized m -> Forall is_byte (ram m) -> Forall is_byte (prg_rom m) ->
  EMUNESV0.CPU_init m = Ok c0 -> CPU_ok c0.
Proof.
  intros Hm Hram Hrom Hinit.
  destruct (CPU_init_inv m c0 Hinit) as [Hc0 Hword].
  assert (Hne : prg_rom m <> []).
  { intros Hempty. unfold EMUNESV0.read_word in Hword.
    rewrite (read_empty_rom m 0xFFFC Hempty) in Hword by lia. discriminate. }
  assert (Hpc : 0 <= PC c0 <= 0xFFFF).
  { rewrite read_word_little_endian in Hword. unfold little_endian_word in Hword.
    destruct (read m 0xFFFC) as [lo |] eqn:Hlo; cbn [bind] in Hword; [| discriminate].
    destruct (read m ((0xFFFC + 1) mod 0x10000)) as [hi |] eqn:Hhi;
      cbn [bind] in Hword; [| discriminate].
    injection Hword as <-.
    apply word_range; eapply read_byte; eauto. }
  rewrite Hc0. unfold CPU_ok, regs_in_range, is_byte. cbn. repeat split; auto; lia.
Qed.

(** C9.  From the state [CPU.__init__] builds over any memory whose cells
    and ROM hold bytes, every number of [step] calls returns a state with
    A, X, Y in [0, 255] and PC in [0, 0xFFFF]. *)
Theorem register_ranges (m : Memory) (c0 : CPU) (n : nat) :
  ram_sized m -> bytesb (ram m) = true -> bytesb (prg_rom m) = true ->
  EMUNESV0.CPU_init m = Ok c0 ->
  exists c, EMUNESV0.steps n c0 = Ok c /\ regs_in_range c.
Proof.
  intros Hm Hram Hrom Hinit.
  assert (Hok : CPU_ok c0)
    by (apply (CPU_init_ok m); auto using bytesb_Forall).
  destruct (steps_ok n c0 Hok) as (c & Hc & Hokc).
  exists c. split; [exact Hc | apply Hokc].
Qed.

Lemma register_ranges_witness :
  exists c, EMUNESV0.steps 7 (boot demo_bank) = Ok c /\ regs_in_range c.
Proof.
  apply (register_ranges (Memory_init demo_bank) (boot demo_bank) 7).
  - vm_compute. reflexivity.
  - vm_compute. reflexivity.
  - vm_compute. reflexivity.
  - vm_compute. reflexivity.
Defined.

(** * Further properties of the code *)

(** ** The memory map *)

(** X1.  ROM mirroring: with a ROM buffer of length L > 0, reading
    0x8000 + i returns cell i mod L of the buffer, so the ROM window
    repeats with period L. *)
Theorem rom_mirroring (m : Memory) (i k : Z) :
  prg_rom m <> [] -> 0 <= i -> 0 <= k ->
  exists v, prg_rom m !! Z.to_nat (i mod Py.len (prg_rom m)) = Some v
            /\ read m (0x8000 + i) = Ok v
            /\ read m (0x8000 + i + k * Py.len (prg_rom m)) = Ok v.
Proof.
  intros Hne Hi Hk.
  assert (HL : 0 < Py.len (prg_rom m)).
  { unfold Py.len. destruct (prg_rom m); [congruence | simpl; lia]. }
  destruct (read_rom m (0x8000 + i) Hne) as (v & Hv & Hr); [lia |].
  destruct (read_rom m (0x8000 + i + k * Py.len (prg_rom m)) Hne)
    as (v' & Hv' & Hr'); [nia |].
  replace (0x8000 + i - 0x8000) with i in Hv by lia.
  replace (0x8000 + i + k * Py.len (prg_rom m) - 0x8000)
    with (i + k * Py.len (prg_rom m)) in Hv' by lia.
  rewrite Z.mod_add in Hv' by lia.
  rewrite Hv in Hv'. injection Hv' as <-. exists v. auto.
Qed.

Lemma rom_mirroring_witness :
  exists v, prg_rom (Memory_init demo_bank)
              !! Z.to_nat (5 mod Py.len (prg_rom (Memory_init demo_bank))) = Some v
            /\ read (Memory_init demo_bank) (0x8000 + 5) = Ok v
            /\ read (Memory_init demo_bank)
                 (0x8000 + 5 + 1 * Py.len (prg_rom (Memory_init demo_bank))) = Ok v.
Proof.
  apply (rom_mirroring (Memory_init demo_bank) 5 1).
  - vm_compute. discriminate.
  - lia.
  - lia.
Defined.

(** X2.  A write changes at most one RAM cell: at 0x2000 and above it
    changes nothing at all, and below it every address that is not a
    mirror of the written one, and every address from 0x2000 up, reads as
    before. *)
Theorem write_changes_one_cell (m m' : Memory) (a v b : Z) :
  ram_sized m -> write m a v = Ok m' ->
  (0x2000 <= a -> m' = m)
  /\ (0x2000 <= b \/ b mod 0x800 <> a mod 0x800 -> read m' b = read m b).
Proof.
  intros Hm Hw. split.
  - intros Ha. rewrite write_high in Hw by assumption. congruence.
  - intros Hb. destruct (Z.lt_ge_cases b 0x2000) as [Hlo | Hhi].
    + destruct Hb as [Hb | Hb]; [lia |].
      destruct (Z.lt_ge_cases a 0x2000) as [Ha | Ha].
      * rewrite write_ram in Hw by assumption. injection Hw as <-.
        unfold read. destruct (Z.ltb_spec b 0x2000); [| lia]. cbn [ram].
        pose proof (ram_index_in_range m a Hm) as Hia.
        pose proof (ram_index_in_range m b Hm) as Hib.
        unfold Py.getitem. rewrite !position_in_range.
        -- cbn [bind]. rewrite list_lookup_insert_ne; [reflexivity |].
           unfold RAM_SIZE in *. lia.
        -- exact Hib.
        -- unfold Py.len in *. rewrite length_insert. exact Hib.
      * rewrite write_high in Hw by assumption. congruence.
    + apply (read_after_write_high m m' a v b Hw Hhi).
Qed.

Lemma write_changes_one_cell_witness :
  (0x2000 <= 0x0200 ->
   {| ram := <[Z.to_nat (0x0200 mod RAM_SIZE) := Z.land 0x1FF 0xFF]>
               (ram (Memory_init nop_bank));
      prg_rom := prg_rom (Memory_init nop_bank) |} = Memory_init nop_bank)
  /\ (0x2000 <= 0x0201 \/ 0x0201 mod 0x800 <> 0x0200 mod 0x800 ->
      read {| ram := <[Z.to_nat (0x0200 mod RAM_SIZE) := Z.land 0x1FF 0xFF]>
                       (ram (Memory_init nop_bank));
              prg_rom := prg_rom (Memory_init nop_bank) |} 0x0201
      = read (Memory_init nop_bank) 0x0201).
Proof.
  apply (write_changes_one_cell (Memory_init nop_bank) _ 0x0200 0x1FF 0x0201).
  - vm_compute. reflexivity.
  - vm_compute. reflexivity.
Defined.

(** X3.  A write below 0x2000 is seen, masked to a byte, through every
    mirror of the written address. *)
Theorem write_visible_through_mirrors (m : Memory) (a b v : Z) :
  ram_sized m -> a < 0x2000 -> b < 0x2000 -> a mod 0x800 = b mod 0x800 ->
  exists m', write m a v = Ok m' /\ read m' b = Ok (v mod 256).
Proof.
  intros Hm Ha Hb Hab. rewrite write_ram by assumption.
  eexists. split; [reflexivity |].
  unfold read. destruct (Z.ltb_spec b 0x2000); [| lia]. cbn [ram].
  pose proof (ram_index_in_range m b Hm) as Hib.
  unfold Py.getitem. rewrite position_in_range.
  - cbn [bind]. unfold RAM_SIZE in *. rewrite Hab.
    rewrite list_lookup_insert_eq.
    + rewrite land_255. reflexivity.
    + unfold Py.len in Hib. lia.
  - unfold Py.len in *. rewrite length_insert. exact Hib.
Qed.

Lemma write_visible_through_mirrors_witness :
  exists m', write (Memory_init nop_bank) 0x0001 (-1) = Ok m'
             /\ read m' 0x1801 = Ok (-1 mod 256).
Proof.
  apply (write_visible_through_mirrors (Memory_init nop_bank) 0x0001 0x1801 (-1)).
  - vm_compute. reflexivity.
  - lia.
  - lia.
  - reflexivity.
Defined.

(** ** The status byte *)

(** X4.  [set_flag] followed by [get_flag] on the same non-zero mask
    returns the value that was set, whatever the mask (one bit or
    several) and whatever the status byte was. *)
Theorem set_flag_then_get_flag (c : CPU) (flag : Z) :
  flag <> 0 ->
  get_flag (set_flag c flag true) flag = true
  /\ get_flag (set_flag c flag false) flag = false.
Proof.
  intros Hflag. unfold get_flag, set_flag. cbn [status with_status]. split.
  - assert (Habs : Z.land (Z.lor (status c) flag) flag = flag).
    { apply Z.bits_inj'. intros j Hj. rewrite Z.land_spec, Z.lor_spec.
      destruct (Z.testbit (status c) j), (Z.testbit flag j); reflexivity. }
    rewrite Habs. destruct (Z.eqb_spec flag 0); [contradiction | reflexivity].
  - assert (Hclr : Z.land (Z.land (status c) (Z.lnot flag)) flag = 0).
    { apply Z.bits_inj'. intros j Hj.
      rewrite !Z.land_spec, Z.lnot_spec, Z.bits_0 by assumption.
      destruct (Z.testbit (status c) j), (Z.testbit flag j); reflexivity. }
    rewrite Hclr. reflexivity.
Qed.

Lemma set_flag_then_get_flag_witness :
  get_flag (set_flag (boot nop_bank) 0x82 true) 0x82 = true
  /\ get_flag (set_flag (boot nop_bank) 0x82 false) 0x82 = false.
Proof. apply (set_flag_then_get_flag (boot nop_bank) 0x82). lia. Defined.

(** X5.  [set_flag] touches exactly the bits of its mask: every bit of the
    mask takes the given value and every other bit of the status byte
    keeps its own. *)
Theorem set_flag_touches_mask_only (c : CPU) (flag : Z) (value : bool) (j : Z) :
  0 <= j ->
  Z.testbit (status (set_flag c flag value)) j =
    if Z.testbit flag j then value else Z.testbit (status c) j.
Proof.
  intros Hj. unfold set_flag. destruct value; cbn [status with_status].
  - rewrite Z.lor_spec.
    destruct (Z.testbit flag j); [apply orb_true_r | apply orb_false_r].
  - rewrite Z.land_spec, Z.lnot_spec by assumption.
    destruct (Z.testbit flag j); [apply andb_false_r | apply andb_true_r].
Qed.

Lemma set_flag_touches_mask_only_witness :
  Z.testbit (status (set_flag (boot nop_bank) 0x02 true)) 2 =
    if Z.testbit 0x02 2 then true else Z.testbit (status (boot nop_bank)) 2.
Proof. apply (set_flag_touches_mask_only (boot nop_bank) 0x02 true 2). lia. Defined.

(** ** The instruction interpreter *)

(** X6.  STA absolute: the step returns, leaves every register and the
    status byte alone, and the accumulator (masked to a byte) is read back
    at the operand address when that address is below 0x2000; a store to
    0x2000 or above leaves the whole memory as it was. *)
Theorem sta_stores_accumulator (c : CPU) (lo hi : Z) :
  ram_sized (memory c) ->
  read (memory c) (PC c) = Ok 0x8D ->
  read (memory c) ((PC c + 1) mod 0x10000) = Ok lo ->
  read (memory c) ((PC c + 2) mod 0x10000) = Ok hi ->
  exists c', EMUNESV0.step c = Ok c'
             /\ A c' = A c /\ X c' = X c /\ Y c' = Y c /\ SP c' = SP c
             /\ status c' = status c
             /\ (Z.lor lo (Z.shiftl hi 8) < 0x2000 ->
                 read (memory c') (Z.lor lo (Z.shiftl hi 8)) = Ok (A c mod 256))
             /\ (0x2000 <= Z.lor lo (Z.shiftl hi 8) -> memory c' = memory c).
Proof.
  intros Hm Hfetch Hlo Hhi.
  destruct (write_defined (memory c) (Z.lor lo (Z.shiftl hi 8)) (A c) Hm)
    as (m' & Hw & _).
  exists (with_memory (with_PC c ((PC c + 3) mod 0x10000)) m').
  split; [exact (step_STA c 0x8D Hfetch lo hi m' eq_refl Hlo Hhi Hw) |].
  cbn [A X Y SP status memory with_memory with_PC].
  repeat split.
  - intros Hlow. apply (read_after_write_same (memory c) m' _ (A c)); assumption.
  - intros Hhigh. rewrite write_high in Hw by assumption. congruence.
Qed.

Lemma sta_stores_accumulator_witness :
  exists c', EMUNESV0.step (mkCPU (Memory_init demo_bank) 0x8002 5 0 0 0xFD 0x24) = Ok c'
             /\ A c' = 5 /\ X c' = 0 /\ Y c' = 0 /\ SP c' = 0xFD
             /\ status c' = 0x24
             /\ (Z.lor 0x00 (Z.shiftl 0x02 8) < 0x2000 ->
                 read (memory c') (Z.lor 0x00 (Z.shiftl 0x02 8)) = Ok (5 mod 256))
             /\ (0x2000 <= Z.lor 0x00 (Z.shiftl 0x02 8) ->
                 memory c' = Memory_init demo_bank).
Proof.
  apply (sta_stores_accumulator
           (mkCPU (Memory_init demo_bank) 0x8002 5 0 0 0xFD 0x24) 0x00 0x02).
  - vm_compute. reflexivity.
  - vm_compute. reflexivity.
  - vm_compute. reflexivity.
  - vm_compute. reflexivity.
Defined.

(** What no instruction touches: the stack pointer, the ROM, and the bits
    of the status byte other than Zero and Negative. *)
Lemma step_keeps (c : CPU) :
  CPU_ok c ->
  exists c', EMUNESV0.step c = Ok c' /\ CPU_ok c'
             /\ SP c' = SP c
             /\ prg_rom (memory c') = prg_rom (memory c)
             /\ forall i, i <> 1 -> i <> 7 ->
                  Z.testbit (status c') i = Z.testbit (status c) i.
Proof.
  intros Hok. destruct (step_ok c Hok) as (c' & Hstep & Hok').
  exists c'. split; [exact Hstep |]. split; [exact Hok' |].
  pose proof Hok as (Hm & Hram & Hrom & Hne & _).
  assert (Hrd : forall a, exists v, read (memory c) a = Ok v).
  { intros a. destruct (read_total_nonempty_rom (memory c) a) as (v & Hv & _); eauto. }
  destruct (Hrd (PC c)) as (op & Hfetch).
  destruct (Hrd ((PC c + 1) mod 0x10000)) as (v1 & Hv1).
  destruct (Hrd ((PC c + 2) mod 0x10000)) as (v2 & Hv2).
  assert (Hzn : forall c1 r,
             SP c1 = SP c -> memory c1 = memory c -> status c1 = status c ->
             Ok (update_zn c1 r) = Ok c' ->
             SP c' = SP c /\ prg_rom (memory c') = prg_rom (memory c)
             /\ forall i, i <> 1 -> i <> 7 ->
                  Z.testbit (status c') i = Z.testbit (status c) i).
  { intros c1 r Hsp Hmem Hst [= <-].
    destruct (update_zn_fields c1 r) as (-> & _ & _ & _ & _ & ->).
    rewrite Hsp, Hmem. repeat split.
    apply (update_zn_flags c c1 r Hst). }
  by_opcode op.
  - rewrite (step_LDA c op Hfetch v1) in Hstep by assumption.
    eapply Hzn; [| | | exact Hstep]; reflexivity.
  - rewrite (step_LDX c op Hfetch v1) in Hstep by assumption.
    eapply Hzn; [| | | exact Hstep]; reflexivity.
  - rewrite (step_LDY c op Hfetch v1) in Hstep by assumption.
    eapply Hzn; [| | | exact Hstep]; reflexivity.
  - destruct (write_defined (memory c) (Z.lor v1 (Z.shiftl v2 8)) (A c) Hm)
      as (m' & Hw & _ & Hrom' & _).
    rewrite (step_STA c op Hfetch v1 v2 m') in Hstep by assumption.
    injection Hstep as <-. cbn. auto.
  - rewrite (step_JMP c op Hfetch v1 v2) in Hstep by assumption.
    injection Hstep as <-. cbn. auto.
  - rewrite (step_INX c op Hfetch) in Hstep by assumption.
    eapply Hzn; [| | | exact Hstep]; reflexivity.
  - rewrite (step_DEX c op Hfetch) in Hstep by assumption.
    eapply Hzn; [| | | exact Hstep]; reflexivity.
  - rewrite (step_inert c op Hfetch) in Hstep by auto using inert_opcode.
    injection Hstep as <-. cbn. auto.
Qed.

Lemma steps_keep (n : nat) : forall c : CPU,
  CPU_ok c ->
  exists c', EMUNESV0.steps n c = Ok c' /\ CPU_ok c'
             /\ SP c' = SP c
             /\ prg_rom (memory c') = prg_rom (memory c)
             /\ forall i, i <> 1 -> i <> 7 ->
                  Z.testbit (status c') i = Z.testbit (status c) i.
Proof.
  induction n as [| n IH]; intros c Hok; cbn [EMUNESV0.steps].
  - exists c. auto.
  - destruct (step_keeps c Hok) as (c1 & -> & Hok1 & Hsp1 & Hrom1 & Hst1).
    cbn [bind]. destruct (IH c1 Hok1) as (c2 & Hc2 & Hok2 & Hsp2 & Hrom2 & Hst2).
    exists c2. split; [exact Hc2 |]. split; [exact Hok2 |].
    split; [congruence |]. split; [congruence |].
    intros i H1 H7. rewrite Hst2, Hst1 by assumption. reflexivity.
Qed.

(** X7.  However long the interpreter runs after construction, the stack
    pointer stays 0xFD, the ROM buffer and the size of the RAM stay as
    they were, and the status byte keeps its reset value 0x24 in every bit
    but Zero and Negative; in particular the IRQ-disable flag (mask 0x04)
    stays set. *)
Theorem steps_keep_sp_rom_and_reset_flags (m : Memory) (c0 : CPU) (n : nat) :
  ram_sized m -> bytesb (ram m) = true -> bytesb (prg_rom m) = true ->
  EMUNESV0.CPU_init m = Ok c0 ->
  exists c, EMUNESV0.steps n c0 = Ok c
            /\ SP c = 0xFD
            /\ prg_rom (memory c) = prg_rom m
            /\ Py.len (ram (memory c)) = 0x800
            /\ (forall i, i <> 1 -> i <> 7 ->
                  Z.testbit (status c) i = Z.testbit 0x24 i)
            /\ get_flag c 0x04 = true.
Proof.
  intros Hm Hram Hrom Hinit.
  assert (Hok : CPU_ok c0)
    by (apply (CPU_init_ok m); auto using bytesb_Forall).
  destruct (CPU_init_inv m c0 Hinit) as [Hc0 _].
  destruct (steps_keep n c0 Hok) as (c & Hc & Hokc & Hsp & Hprg & Hst).
  assert (Hbits : forall i, i <> 1 -> i <> 7 ->
                    Z.testbit (status c) i = Z.testbit 0x24 i).
  { intros i H1 H7. rewrite Hst by assumption. rewrite Hc0. reflexivity. }
  exists c. split; [exact Hc |].
  split; [rewrite Hsp, Hc0; reflexivity |].
  split; [rewrite Hprg, Hc0; reflexivity |].
  split; [apply Hokc |]. split; [exact Hbits |].
  change 0x04 with (2 ^ 2). rewrite get_flag_pow2 by lia.
  rewrite Hbits by lia. reflexivity.
Qed.

Lemma steps_keep_sp_rom_and_reset_flags_witness :
  exists c, EMUNESV0.steps 5 (boot demo_bank) = Ok c
            /\ SP c = 0xFD
            /\ prg_rom (memory c) = prg_rom (Memory_init demo_bank)
            /\ Py.len (ram (memory c)) = 0x800
            /\ (forall i, i <> 1 -> i <> 7 ->
                  Z.testbit (status c) i = Z.testbit 0x24 i)
            /\ get_flag c 0x04 = true.
Proof.
  apply (steps_keep_sp_rom_and_reset_flags (Memory_init demo_bank) (boot demo_bank) 5).
  - vm_compute. reflexivity.
  - vm_compute. reflexivity.
  - vm_compute. reflexivity.
  - vm_compute. reflexivity.
Defined.

Lemma inc_dec_byte (x : Z) :
  is_byte x -> ((x + 1) mod 256 - 1) mod 256 = x /\ ((x - 1) mod 256 + 1) mod 256 = x.
Proof.
  unfold is_byte. intros Hx. split.
  - rewrite Zminus_mod_idemp_l. replace (x + 1 - 1) with x by lia.
    apply Z.mod_small. lia.
  - rewrite Zplus_mod_idemp_l. replace (x - 1 + 1) with x by lia.
    apply Z.mod_small. lia.
Qed.

(** The flag rule also holds when the status byte the two updates start
    from already differs from the reference in Zero and Negative. *)
Lemma update_zn_flags_from (c0 c : CPU) (r : Z) :
  (forall i, i <> 1 -> i <> 7 -> Z.testbit (status c) i = Z.testbit (status c0) i) ->
  flags_follow c0 (update_zn c r) r.
Proof.
  intros Hst. unfold flags_follow.
  change 0x02 with (2 ^ 1). change 0x80 with (2 ^ 7).
  rewrite !get_flag_pow2 by lia. rewrite !update_zn_bits by lia.
  split; [reflexivity |]. split; [reflexivity |].
  intros i H1 H7. destruct (Z.lt_ge_cases i 0) as [Hneg | Hpos].
  - rewrite !Z.testbit_neg_r by assumption. reflexivity.
  - rewrite update_zn_bits by assumption.
    destruct (Z.eqb_spec i 7); [lia |]. destruct (Z.eqb_spec i 1); [lia |].
    apply Hst; assumption.
Qed.

(** Two register updates in a row, the second restoring X. *)
Lemma update_zn_twice (c : CPU) (x1 : Z) :
  let c1 := update_zn (with_X (with_PC c ((PC c + 1) mod 0x10000)) x1) x1 in
  let c2 := update_zn (with_X (with_PC c1 ((PC c1 + 1) mod 0x10000)) (X c)) (X c) in
  X c2 = X c /\ A c2 = A c /\ Y c2 = Y c /\ SP c2 = SP c
  /\ memory c2 = memory c
  /\ PC c2 = (PC c + 2) mod 0x10000
  /\ flags_follow c c2 (X c).
Proof.
  intros c1 c2.
  destruct (update_zn_fields (with_X (with_PC c ((PC c + 1) mod 0x10000)) x1) x1)
    as (Hm1 & Hpc1 & Ha1 & Hx1 & Hy1 & Hsp1).
  fold c1 in Hm1, Hpc1, Ha1, Hx1, Hy1, Hsp1.
  cbn [memory PC A X Y SP with_X with_PC] in Hm1, Hpc1, Ha1, Hx1, Hy1, Hsp1.
  destruct (update_zn_fields (with_X (with_PC c1 ((PC c1 + 1) mod 0x10000)) (X c)) (X c))
    as (Hm2 & Hpc2 & Ha2 & Hx2 & Hy2 & Hsp2).
  fold c2 in Hm2, Hpc2, Ha2, Hx2, Hy2, Hsp2.
  cbn [memory PC A X Y SP with_X with_PC] in Hm2, Hpc2, Ha2, Hx2, Hy2, Hsp2.
  split; [exact Hx2 |]. split; [congruence |]. split; [congruence |].
  split; [congruence |]. split; [congruence |]. split.
  - rewrite Hpc2, Hpc1. rewrite Z.add_mod_idemp_l by lia. f_equal. lia.
  - apply update_zn_flags_from. cbn [status with_X with_PC].
    apply (update_zn_flags c (with_X (with_PC c ((PC c + 1) mod 0x10000)) x1) x1).
    reflexivity.
Qed.

(** X8.  INX followed by DEX, or DEX followed by INX, gives X its old
    value back, also across the wrap between 0xFF and 0x00; the two steps
    return, change neither A, Y, SP nor the memory, advance PC by 2
    (mod 0x10000), and leave Zero and Negative as X dictates. *)
Theorem inx_dex_round_trip (c : CPU) (op1 op2 : Z) :
  is_byte (X c) ->
  (op1 = 0xE8 /\ op2 = 0xCA) \/ (op1 = 0xCA /\ op2 = 0xE8) ->
  read (memory c) (PC c) = Ok op1 ->
  read (memory c) ((PC c + 1) mod 0x10000) = Ok op2 ->
  exists c2, EMUNESV0.steps 2 c = Ok c2
             /\ X c2 = X c /\ A c2 = A c /\ Y c2 = Y c /\ SP c2 = SP c
             /\ memory c2 = memory c
             /\ PC c2 = (PC c + 2) mod 0x10000
             /\ flags_follow c c2 (X c).
Proof.
  intros HX Hops H1 H2. destruct (inc_dec_byte (X c) HX) as [Hid Hdi].
  cbn [EMUNESV0.steps].
  destruct Hops as [[-> ->] | [-> ->]].
  - rewrite (step_INX c 0xE8 H1 eq_refl). cbn [bind].
    pose proof (update_zn_twice c ((X c + 1) mod 256)) as Htwice.
    cbv zeta in Htwice.
    set (c1 := update_zn (with_X (with_PC c ((PC c + 1) mod 0x10000))
                            ((X c + 1) mod 256)) ((X c + 1) mod 256)) in *.
    destruct (update_zn_fields (with_X (with_PC c ((PC c + 1) mod 0x10000))
                                  ((X c + 1) mod 256)) ((X c + 1) mod 256))
      as (Hm1 & Hpc1 & _ & Hx1 & _).
    fold c1 in Hm1, Hpc1, Hx1. cbn [memory PC X with_X with_PC] in Hm1, Hpc1, Hx1.
    assert (Hf : read (memory c1) (PC c1) = Ok 0xCA) by (rewrite Hm1, Hpc1; exact H2).
    rewrite (step_DEX c1 0xCA Hf eq_refl). cbn [bind].
    rewrite Hx1, Hid. eexists. split; [reflexivity | exact Htwice].
  - rewrite (step_DEX c 0xCA H1 eq_refl). cbn [bind].
    pose proof (update_zn_twice c ((X c - 1) mod 256)) as Htwice.
    cbv zeta in Htwice.
    set (c1 := update_zn (with_X (with_PC c ((PC c + 1) mod 0x10000))
                            ((X c - 1) mod 256)) ((X c - 1) mod 256)) in *.
    destruct (update_zn_fields (with_X (with_PC c ((PC c + 1) mod 0x10000))
                                  ((X c - 1) mod 256)) ((X c - 1) mod 256))
      as (Hm1 & Hpc1 & _ & Hx1 & _).
    fold c1 in Hm1, Hpc1, Hx1. cbn [memory PC X with_X with_PC] in Hm1, Hpc1, Hx1.
    assert (Hf : read (memory c1) (PC c1) = Ok 0xE8) by (rewrite Hm1, Hpc1; exact H2).
    rewrite (step_INX c1 0xE8 Hf eq_refl). cbn [bind].
    rewrite Hx1, Hdi. eexists. split; [reflexivity | exact Htwice].
Qed.

Lemma inx_dex_round_trip_witness :
  exists c2, EMUNESV0.steps 2
               (mkCPU (Memory_init (bank_with [0xCA; 0xE8])) 0x8000 0 0 0 0xFD 0x24) = Ok c2
             /\ X c2 = 0 /\ A c2 = 0 /\ Y c2 = 0 /\ SP c2 = 0xFD
             /\ memory c2 = Memory_init (bank_with [0xCA; 0xE8])
             /\ PC c2 = (0x8000 + 2) mod 0x10000
             /\ flags_follow
                  (mkCPU (Memory_init (bank_with [0xCA; 0xE8])) 0x8000 0 0 0 0xFD 0x24)
                  c2 0.
Proof.
  apply (inx_dex_round_trip
           (mkCPU (Memory_init (bank_with [0xCA; 0xE8])) 0x8000 0 0 0 0xFD 0x24)
           0xCA 0xE8).
  - cbn. unfold is_byte. lia.
  - right. split; reflexivity.
  - vm_compute. reflexivity.
  - vm_compute. reflexivity.
Defined.

(** X9.  A load, an increment or a decrement changes one register only:
    the memory, the stack pointer and the two other registers are as
    before. *)
Theorem loads_touch_one_register (c : CPU) (op : Z) :
  ram_sized (memory c) -> 0 <= PC c < 0x10000 ->
  read (memory c) (PC c) = Ok op ->
  In op [0xA9; 0xA2; 0xA0; 0xE8; 0xCA] ->
  exists c', EMUNESV0.step c = Ok c'
             /\ memory c' = memory c /\ SP c' = SP c
             /\ (op <> 0xA9 -> A c' = A c)
             /\ (op = 0xA9 \/ op = 0xA0 -> X c' = X c)
             /\ (op <> 0xA0 -> Y c' = Y c).
Proof.
  intros Hm Hpc Hfetch Hop.
  assert (Hnz : op <> 0) by (cbn [In] in Hop; lia).
  assert (Hrd : exists v, read (memory c) ((PC c + 1) mod 0x10000) = Ok v).
  { apply (operand_defined _ (PC c) op); auto.
    pose proof (pc_wrap_le (PC c) 1). lia. }
  destruct Hrd as [v Hv].
  cbn [In] in Hop. destruct Hop as [<- | [<- | [<- | [<- | [<- | []]]]]].
  - eexists. split; [eapply step_LDA; eauto |].
    destruct (update_zn_fields (with_A (with_PC c ((PC c + 2) mod 65536)) v) v)
      as (-> & _ & -> & -> & -> & ->).
    cbn. repeat split; intros; try reflexivity; lia.
  - eexists. split; [eapply step_LDX; eauto |].
    destruct (update_zn_fields (with_X (with_PC c ((PC c + 2) mod 65536)) v) v)
      as (-> & _ & -> & -> & -> & ->).
    cbn. repeat split; intros; try reflexivity; lia.
  - eexists. split; [eapply step_LDY; eauto |].
    destruct (update_zn_fields (with_Y (with_PC c ((PC c + 2) mod 65536)) v) v)
      as (-> & _ & -> & -> & -> & ->).
    cbn. repeat split; intros; try reflexivity; lia.
  - eexists. split; [eapply step_INX; eauto |].
    destruct (update_zn_fields
                (with_X (with_PC c ((PC c + 1) mod 65536)) ((X c + 1) mod 256))
                ((X c + 1) mod 256)) as (-> & _ & -> & -> & -> & ->).
    cbn. repeat split; intros; try reflexivity; lia.
  - eexists. split; [eapply step_DEX; eauto |].
    destruct (update_zn_fields
                (with_X (with_PC c ((PC c + 1) mod 65536)) ((X c - 1) mod 256))
                ((X c - 1) mod 256)) as (-> & _ & -> & -> & -> & ->).
    cbn. repeat split; intros; try reflexivity; lia.
Qed.

Lemma loads_touch_one_register_witness :
  exists c', EMUNESV0.step (boot ldx_bank) = Ok c'
             /\ memory c' = memory (boot ldx_bank) /\ SP c' = SP (boot ldx_bank)
             /\ (0xA2 <> 0xA9 -> A c' = A (boot ldx_bank))
             /\ (0xA2 = 0xA9 \/ 0xA2 = 0xA0 -> X c' = X (boot ldx_bank))
             /\ (0xA2 <> 0xA0 -> Y c' = Y (boot ldx_bank)).
Proof.
  apply (loads_touch_one_register (boot ldx_bank) 0xA2).
  - vm_compute. reflexivity.
  - cbn. lia.
  - vm_compute. reflexivity.
  - cbn. auto.
Defined.

(** X10.  The two interpreters agree, results and exceptions alike, on
    every opcode outside LDX, LDY, INX and DEX, provided the two operand
    bytes of STA and JMP do not wrap past 0xFFFF; and the two constructors
    agree on every memory, the reset vector lying below 0xFFFF. *)
Theorem interpreters_agree (c : CPU) (op : Z) :
  0 <= PC c ->
  read (memory c) (PC c) = Ok op ->
  ~ In op [0xA2; 0xA0; 0xE8; 0xCA] ->
  (op = 0x8D \/ op = 0x4C -> PC c + 2 < 0x10000) ->
  EMUAI4K.step c = EMUNESV0.step c
  /\ EMUAI4K.CPU_init (memory c) = EMUNESV0.CPU_init (memory c).
Proof.
  intros Hpc Hfetch Hout Hwrap. split; [| reflexivity].
  cbn [In] in Hout.
  unfold EMUAI4K.step, EMUNESV0.step. rewrite Hfetch. cbn [bind].
  destruct (Z.eqb_spec op 0xA9); [reflexivity |].
  destruct (Z.eqb_spec op 0xA2); [exfalso; lia |].
  destruct (Z.eqb_spec op 0xA0); [exfalso; lia |].
  assert (Hnext : PC c + 2 < 0x10000 ->
                  Z.land (Z.land (PC c + 1) 0xFFFF + 1) 0xFFFF
                  = Z.land (PC c + 1) 0xFFFF + 1).
  { intros Hlt. rewrite !land_65535. rewrite (Z.mod_small (PC c + 1)) by lia.
    apply Z.mod_small. lia. }
  destruct (Z.eqb_spec op 0x8D).
  { cbn [memory PC with_PC]. rewrite Hnext by (apply Hwrap; auto). reflexivity. }
  destruct (Z.eqb_spec op 0x4C).
  { cbn [memory PC with_PC]. rewrite Hnext by (apply Hwrap; auto). reflexivity. }
  destruct (Z.eqb_spec op 0xEA); [reflexivity |].
  destruct (Z.eqb_spec op 0xE8); [exfalso; lia |].
  destruct (Z.eqb_spec op 0xCA); [exfalso; lia |].
  destruct (Z.eqb_spec op 0x00); reflexivity.
Qed.

Lemma interpreters_agree_witness :
  EMUAI4K.step (boot demo_bank) = EMUNESV0.step (boot demo_bank)
  /\ EMUAI4K.CPU_init (memory (boot demo_bank))
     = EMUNESV0.CPU_init (memory (boot demo_bank)).
Proof.
  apply (interpreters_agree (boot demo_bank) 0xA9).
  - cbn. lia.
  - vm_compute. reflexivity.
  - cbn. lia.
  - cbn. lia.
Defined.

(** ** The iNES loaders *)

(** What the loader inlined in [EMUAI4K.py] returns for any buffer with a
    complete header, whatever its first four bytes. *)
Lemma load_rom_accepts (sig rest body : list Z) (p q f6 : Z) :
  length sig = 4%nat -> length rest = 9%nat ->
  EMUAI4K.load_rom (sig ++ [p; q; f6] ++ rest ++ body) =
    Ok (take (Z.to_nat (16384 * p)) body,
        take (Z.to_nat (8192 * q)) (drop (Z.to_nat (16384 * p)) body)).
Proof.
  intros Hsig Hrest.
  do 5 (destruct sig as [| ? sig]; try discriminate Hsig). clear Hsig.
  do 10 (destruct rest as [| ? rest]; try discriminate Hrest). clear Hrest.
  unfold EMUAI4K.load_rom, Py.file_read.
  match goal with
  | |- context [take (Z.to_nat 16) ?file] =>
      change (take (Z.to_nat 16) file) with (take 16 file);
      change (drop (Z.to_nat 16) file) with (drop 16 file)
  end.
  cbn [app take drop].
  match goal with
  | |- context [Py.getitem ?h 4] =>
      change (Py.getitem h 4) with (Ok p);
      change (Py.getitem h 5) with (Ok q)
  end.
  reflexivity.
Qed.

Lemma len_take (l : list Z) (n : Z) :
  0 <= n -> Py.len (take (Z.to_nat n) l) = Z.min n (Py.len l).
Proof. intros Hn. unfold Py.len. rewrite length_take. lia. Qed.

Lemma len_drop (l : list Z) (n : Z) :
  0 <= n -> Py.len (drop (Z.to_nat n) l) = Py.len l - Z.min n (Py.len l).
Proof. intros Hn. unfold Py.len. rewrite length_drop. lia. Qed.

(** X11.  For a buffer that starts with the signature and has a complete
    header, [load_ines_rom] never raises, and a truncated file is accepted
    silently: PRG followed by CHR is the start of what follows the header
    (after the trainer, when flagged), PRG has the declared size or all
    that is there, and CHR the declared size or all that is left. *)
Theorem load_ines_rom_truncates (p q f6 : Z) (rest body : list Z) :
  length rest = 9%nat -> 0 <= p -> 0 <= q ->
  exists prg chr,
    EMUNESV0.load_ines_rom (ines_signature ++ [p; q; f6] ++ rest ++ body)
      = Ok (prg, chr)
    /\ (prg ++ chr) `prefix_of`
         (if Py.truthy (Z.land f6 0x04) then drop 512 body else body)
    /\ Py.len prg =
         Z.min (p * 16384)
           (Py.len (if Py.truthy (Z.land f6 0x04) then drop 512 body else body))
    /\ Py.len chr =
         Z.min (q * 8192)
           (Py.len (if Py.truthy (Z.land f6 0x04) then drop 512 body else body)
            - Py.len prg).
Proof.
  intros Hrest Hp Hq. rewrite load_ines_rom_accepts by exact Hrest. cbv zeta.
  set (body' := if Py.truthy (Z.land f6 4) then drop 512 body else body).
  replace (p * 16 * 1024) with (p * 16384) by lia.
  replace (q * 8 * 1024) with (q * 8192) by lia.
  eexists _, _. split; [reflexivity |].
  assert (Hprg : Py.len (take (Z.to_nat (p * 16384)) body')
                 = Z.min (p * 16384) (Py.len body')) by (apply len_take; lia).
  split; [| split; [exact Hprg |]].
  - rewrite Z.gtb_ltb. destruct (Z.ltb_spec 0 (q * 8192)).
    + rewrite take_take_drop. apply prefix_take.
    + rewrite app_nil_r. apply prefix_take.
  - rewrite Hprg. rewrite Z.gtb_ltb. destruct (Z.ltb_spec 0 (q * 8192)).
    + rewrite len_take by lia. rewrite len_drop by lia. reflexivity.
    + unfold Py.len at 1. cbn [length]. lia.
Qed.

Lemma load_ines_rom_truncates_witness :
  exists prg chr,
    EMUNESV0.load_ines_rom
      (ines_signature ++ [2; 1; 0] ++ replicate 9 0 ++ [0xA9; 0x05; 0xEA])
      = Ok (prg, chr)
    /\ (prg ++ chr) `prefix_of`
         (if Py.truthy (Z.land 0 0x04) then drop 512 [0xA9; 0x05; 0xEA]
          else [0xA9; 0x05; 0xEA])
    /\ Py.len prg =
         Z.min (2 * 16384)
           (Py.len (if Py.truthy (Z.land 0 0x04) then drop 512 [0xA9; 0x05; 0xEA]
                    else [0xA9; 0x05; 0xEA]))
    /\ Py.len chr =
         Z.min (1 * 8192)
           (Py.len (if Py.truthy (Z.land 0 0x04) then drop 512 [0xA9; 0x05; 0xEA]
                    else [0xA9; 0x05; 0xEA])
            - Py.len prg).
Proof.
  apply (load_ines_rom_truncates 2 1 0 (replicate 9 0) [0xA9; 0x05; 0xEA]).
  - reflexivity.
  - lia.
  - lia.
Defined.

(** X12.  A buffer that starts with the signature but stops before header
    byte 6 is not rejected as a bad format: indexing the short header
    raises [IndexError]. *)
Theorem load_ines_rom_short_header (file : list Z) :
  take 4 file = ines_signature -> (length file < 7)%nat ->
  EMUNESV0.load_ines_rom file = Raise IndexError.
Proof.
  intros Hsig Hlen. unfold ines_signature in Hsig.
  destruct file as [| b0 [| b1 [| b2 [| b3 file]]]]; try discriminate Hsig.
  cbn [take] in Hsig. injection Hsig as -> -> -> ->.
  destruct file as [| b4 [| b5 [| b6 file]]]; try reflexivity.
  cbn [length] in Hlen. lia.
Qed.

Lemma load_ines_rom_short_header_witness :
  EMUNESV0.load_ines_rom [0x4E; 0x45; 0x53; 0x1A; 1; 1] = Raise IndexError.
Proof.
  apply (load_ines_rom_short_header [0x4E; 0x45; 0x53; 0x1A; 1; 1]).
  - reflexivity.
  - cbn. lia.
Defined.

(** X13.  On a buffer with the signature, a complete header and the
    trainer flag clear, the loader inlined in [EMUAI4K.py] returns exactly
    what [load_ines_rom] returns. *)
Theorem loaders_agree_without_trainer (p q f6 : Z) (rest body : list Z) :
  length rest = 9%nat -> Z.land f6 0x04 = 0 ->
  EMUAI4K.load_rom (ines_signature ++ [p; q; f6] ++ rest ++ body)
  = EMUNESV0.load_ines_rom (ines_signature ++ [p; q; f6] ++ rest ++ body).
Proof.
  intros Hrest Hflag.
  rewrite load_rom_accepts by (reflexivity || exact Hrest).
  rewrite load_ines_rom_accepts by exact Hrest. cbv zeta.
  rewrite Hflag. change (Py.truthy 0) with false. cbv iota.
  replace (p * 16 * 1024) with (16384 * p) by lia.
  replace (q * 8 * 1024) with (8192 * q) by lia.
  rewrite Z.gtb_ltb. destruct (Z.ltb_spec 0 (8192 * q)); [reflexivity |].
  replace (Z.to_nat (8192 * q)) with 0%nat by lia. reflexivity.
Qed.

Lemma loaders_agree_without_trainer_witness :
  EMUAI4K.load_rom (ines_signature ++ [1; 0; 1] ++ replicate 9 0 ++ [0xEA; 0xEA])
  = EMUNESV0.load_ines_rom (ines_signature ++ [1; 0; 1] ++ replicate 9 0 ++ [0xEA; 0xEA]).
Proof.
  apply (loaders_agree_without_trainer 1 0 1 (replicate 9 0) [0xEA; 0xEA]).
  - reflexivity.
  - reflexivity.
Defined.

(** ** The formatter *)

Lemma header_assignments (T : Type) (p q : Z) (k : list Z -> result T) :
  (let* header := Py.setitem ([0x4E; 0x45; 0x53; 0x1A] ++ drop 4 (replicate 16 0)) 4 p in
   let* header := Py.setitem header 5 q in k header)
  = k (ines_signature ++ [p; q; 0] ++ replicate 9 0).
Proof. reflexivity. Qed.

Lemma format_ines_rom_result (prg : list Z) (chr_file : option (list Z)) :
  Py.len prg / 16384 < 256 ->
  (forall d, chr_file = Some d -> Py.len d / 8192 < 256) ->
  format_ines_rom prg chr_file =
    Ok (ines_signature
          ++ [Py.len prg / 16384; Py.len (default [] chr_file) / 8192; 0]
          ++ replicate 9 0 ++ prg ++ default [] chr_file).
Proof.
  intros Hprg Hchr. unfold format_ines_rom, bytearray_setitem.
  change (16 * 1024) with 16384. change (8 * 1024) with 8192.
  assert (Hp : 0 <= Py.len prg / 16384) by (apply Z.div_pos; unfold Py.len; lia).
  destruct chr_file as [d |]; cbn [default].
  - assert (Hq : 0 <= Py.len d / 8192) by (apply Z.div_pos; unfold Py.len; lia).
    specialize (Hchr d eq_refl).
    destruct (Z.leb_spec 0 (Py.len prg / 16384)); [| lia].
    destruct (Z.ltb_spec (Py.len prg / 16384) 256); [| lia].
    destruct (Z.leb_spec 0 (Py.len d / 8192)); [| lia].
    destruct (Z.ltb_spec (Py.len d / 8192) 256); [| lia].
    cbn [andb]. rewrite header_assignments.
    rewrite <- !app_assoc. do 5 f_equal.
    destruct (Z.eqb_spec (Py.len d) 0) as [Hz | Hz]; [| reflexivity].
    destruct d; [reflexivity | unfold Py.len in Hz; cbn [length] in Hz; lia].
  - destruct (Z.leb_spec 0 (Py.len prg / 16384)); [| lia].
    destruct (Z.ltb_spec (Py.len prg / 16384) 256); [| lia].
    cbn [andb]. change ((0 <=? 0) && (0 <? 256)) with true. cbv iota.
    rewrite header_assignments.
    rewrite <- !app_assoc. reflexivity.
Qed.

(** X14.  Round trip: when the PRG data is a whole number of 16 KiB banks
    and the CHR data, if any, a whole number of 8 KiB banks (fewer than 256
    of each), the file [format_ines_rom] writes is read back by
    [load_ines_rom], and by the loader inlined in [EMUAI4K.py], as exactly
    the PRG and CHR data it was made from. *)
Theorem format_then_load (prg : list Z) (chr_file : option (list Z)) :
  Py.len prg mod 16384 = 0 -> Py.len prg / 16384 < 256 ->
  (forall d, chr_file = Some d -> Py.len d mod 8192 = 0 /\ Py.len d / 8192 < 256) ->
  exists file, format_ines_rom prg chr_file = Ok file
               /\ EMUNESV0.load_ines_rom file = Ok (prg, default [] chr_file)
               /\ EMUAI4K.load_rom file = Ok (prg, default [] chr_file).
Proof.
  intros Hmod Hprg Hchr.
  rewrite format_ines_rom_result; [| exact Hprg | intros d Hd; apply (Hchr d Hd)].
  eexists. split; [reflexivity |].
  set (chr := default [] chr_file).
  assert (Hc : Py.len chr mod 8192 = 0).
  { unfold chr. destruct chr_file as [d |]; [apply (Hchr d eq_refl) | reflexivity]. }
  assert (Hlp : Py.len prg = Py.len prg / 16384 * 16384)
    by (pose proof (Z.div_mod (Py.len prg) 16384); lia).
  assert (Hlc : Py.len chr = Py.len chr / 8192 * 8192)
    by (pose proof (Z.div_mod (Py.len chr) 8192); lia).
  assert (Hagree :
            EMUAI4K.load_rom
              (ines_signature ++ [Py.len prg / 16384; Py.len chr / 8192; 0]
                 ++ replicate 9 0 ++ prg ++ chr)
            = EMUNESV0.load_ines_rom
                (ines_signature ++ [Py.len prg / 16384; Py.len chr / 8192; 0]
                   ++ replicate 9 0 ++ prg ++ chr)).
  { rewrite load_rom_accepts by reflexivity.
    rewrite load_ines_rom_accepts by reflexivity. cbv zeta.
    change (Py.truthy (Z.land 0 4)) with false. cbv iota.
    replace (Py.len prg / 16384 * 16 * 1024) with (16384 * (Py.len prg / 16384)) by lia.
    replace (Py.len chr / 8192 * 8 * 1024) with (8192 * (Py.len chr / 8192)) by lia.
    rewrite Z.gtb_ltb. destruct (Z.ltb_spec 0 (8192 * (Py.len chr / 8192))); [reflexivity |].
    replace (Z.to_nat (8192 * (Py.len chr / 8192))) with 0%nat by lia. reflexivity. }
  rewrite Hagree.
  cut (EMUNESV0.load_ines_rom
         (ines_signature ++ [Py.len prg / 16384; Py.len chr / 8192; 0]
            ++ replicate 9 0 ++ prg ++ chr) = Ok (prg, chr)); [tauto |].
  rewrite load_ines_rom_accepts by reflexivity. cbv zeta.
  change (Py.truthy (Z.land 0 4)) with false. cbv iota.
  replace (Py.len prg / 16384 * 16 * 1024) with (Py.len prg) by lia.
  replace (Py.len chr / 8192 * 8 * 1024) with (Py.len chr) by lia.
  unfold Py.len. rewrite !Nat2Z.id.
  rewrite take_app_length, drop_app_length, take_ge by lia.
  rewrite Z.gtb_ltb. destruct (Z.ltb_spec 0 (Z.of_nat (length chr))); [reflexivity |].
  destruct chr; [reflexivity | cbn [length] in *; lia].
Qed.

Lemma format_then_load_witness :
  exists file, format_ines_rom nop_bank None = Ok file
               /\ EMUNESV0.load_ines_rom file = Ok (nop_bank, default [] None)
               /\ EMUAI4K.load_rom file = Ok (nop_bank, default [] None).
Proof.
  apply (format_then_load nop_bank None).
  - vm_compute. reflexivity.
  - vm_compute. reflexivity.
  - intros d Hd. discriminate Hd.
Defined.

(** X15.  The formatter raises [ValueError] for PRG data of 256 banks
    (4 MiB) or more and for CHR data of 256 banks (2 MiB) or more: the
    bank count does not fit the header byte. *)
Theorem format_ines_rom_too_large (prg : list Z) (chr_file : option (list Z)) :
  256 * 16384 <= Py.len prg
  \/ (exists d, chr_file = Some d /\ 256 * 8192 <= Py.len d) ->
  format_ines_rom prg chr_file = Raise ValueError.
Proof.
  intros Hbig. unfold format_ines_rom, bytearray_setitem.
  change (16 * 1024) with 16384. change (8 * 1024) with 8192.
  destruct (Z.lt_ge_cases (Py.len prg / 16384) 256) as [Hsmall | Hlarge].
  - destruct Hbig as [Hbig | (d & -> & Hbig)].
    + assert (256 <= Py.len prg / 16384) by (apply Z.div_le_lower_bound; lia). lia.
    + assert (Hq : 256 <= Py.len d / 8192) by (apply Z.div_le_lower_bound; lia).
      assert (Hp : 0 <= Py.len prg / 16384) by (apply Z.div_pos; unfold Py.len; lia).
      destruct (Z.leb_spec 0 (Py.len prg / 16384)); [| lia].
      destruct (Z.ltb_spec (Py.len prg / 16384) 256); [| lia].
      cbn [andb]. cbn -[Z.div Py.len].
      destruct (Z.ltb_spec (Py.len d / 8192) 256); [lia |].
      rewrite andb_false_r. reflexivity.
  - destruct (Z.ltb_spec (Py.len prg / 16384) 256); [lia |].
    rewrite andb_false_r. destruct chr_file; reflexivity.
Qed.

Lemma format_ines_rom_too_large_witness :
  format_ines_rom [] (Some (replicate (Z.to_nat (256 * 8192)) 0)) = Raise ValueError.
Proof.
  apply (format_ines_rom_too_large [] (Some (replicate (Z.to_nat (256 * 8192)) 0))).
  right. eexists. split; [reflexivity |]. vm_compute. discriminate.
Defined.

(** X16.  PRG data shorter than one bank is formatted without complaint,
    with a bank count of 0, and the file it gives is accepted by
    [load_ines_rom] with an empty PRG-ROM, over which constructing the CPU
    raises [ZeroDivisionError]. *)
Theorem format_short_prg_unusable (prg : list Z) (chr_file : option (list Z)) :
  Py.len prg < 16384 ->
  (forall d, chr_file = Some d -> Py.len d / 8192 < 256) ->
  exists file chr,
    format_ines_rom prg chr_file = Ok file
    /\ EMUNESV0.load_ines_rom file = Ok ([], chr)
    /\ EMUNESV0.CPU_init (Memory_init []) = Raise ZeroDivisionError.
Proof.
  intros Hshort Hchr.
  assert (Hp : Py.len prg / 16384 = 0)
    by (apply Z.div_small; unfold Py.len in *; lia).
  rewrite format_ines_rom_result; [| lia | exact Hchr].
  eexists _, _. split; [reflexivity |].
  split; [| vm_compute; reflexivity].
  rewrite load_ines_rom_accepts by reflexivity. cbv zeta.
  rewrite Hp. reflexivity.
Qed.

Lemma format_short_prg_unusable_witness :
  exists file chr,
    format_ines_rom [0xA9; 0x05; 0xEA] None = Ok file
    /\ EMUNESV0.load_ines_rom file = Ok ([], chr)
    /\ EMUNESV0.CPU_init (Memory_init []) = Raise ZeroDivisionError.
Proof.
  apply (format_short_prg_unusable [0xA9; 0x05; 0xEA] None).
  - vm_compute. reflexivity.
  - intros d Hd. discriminate Hd.
Defined.

(** ** The command line *)

(** X17.  [main] with [--format-rom]: without a PRG path it raises
    [IndexError]; with one extra argument after the PRG path the output
    still goes to [output.nes], the extra argument being the CHR path when
    it ends in [.bin] and ignored otherwise; only a fifth argument is
    taken as the output path. *)
Theorem main_format_rom_arguments (prog prg third out : string) (more : list string) :
  main [prog; "--format-rom"%string] = Raise IndexError
  /\ main [prog; "--format-rom"%string; prg]
     = Ok (FormatRom prg None "output.nes")
  /\ main [prog; "--format-rom"%string; prg; third]
     = Ok (FormatRom prg (if endswith third ".bin" then Some third else None)
             "output.nes")
  /\ main ([prog; "--format-rom"%string; prg; third; out] ++ more)
     = Ok (FormatRom prg (if endswith third ".bin" then Some third else None) out).
Proof.
  split; [reflexivity |]. split; [reflexivity |].
  split; unfold main; cbn; destruct (endswith third ".bin"); reflexivity.
Qed.

(** ** The window *)

Lemma map_replicate_const (T U : Type) (f : T -> U) (n : nat) (x : T) :
  map f (replicate n x) = replicate n (f x).
Proof. induction n as [| n IH]; cbn; [reflexivity | rewrite IH; reflexivity]. Qed.

(** The frame rendered over a fresh PPU is the black frame it was built
    with, whatever the CHR-ROM. *)
Lemma render_frame_black (chr : list Z) :
  render_frame (PPU_init chr) = (PPU_init chr, frame (PPU_init chr)).
Proof.
  unfold render_frame, PPU_init. cbn [frame chr_rom].
  rewrite !map_replicate_const. reflexivity.
Qed.

Lemma CPU_init_defined (prg : list Z) :
  prg <> [] -> bytesb prg = true ->
  exists c0, EMUNESV0.CPU_init (Memory_init prg) = Ok c0 /\ CPU_ok c0.
Proof.
  intros Hne Hb.
  assert (Hrd : forall a, exists v, read (Memory_init prg) a = Ok v).
  { intros a. destruct (read_total_nonempty_rom (Memory_init prg) a) as (v & Hv & _);
      eauto using Memory_init_sized, Memory_init_bytes, bytesb_Forall. }
  destruct (Hrd 0xFFFC) as [lo Hlo].
  destruct (Hrd (Z.land (0xFFFC + 1) 0xFFFF)) as [hi Hhi].
  assert (Hinit : EMUNESV0.CPU_init (Memory_init prg)
                  = Ok (mkCPU (Memory_init prg) (Z.lor (Z.shiftl hi 8) lo) 0 0 0 0xFD 0x24)).
  { unfold EMUNESV0.CPU_init, EMUNESV0.read_word. rewrite Hlo. cbn [bind].
    rewrite Hhi. reflexivity. }
  eexists. split; [exact Hinit |].
  apply (CPU_init_ok (Memory_init prg));
    auto using Memory_init_sized, Memory_init_bytes, bytesb_Forall.
Qed.

(** X18.  A file that cannot be opened, or whose first four bytes are not
    the signature, only adds an error box: memory, CPU, PPU, the running
    flag, the status text, the image and the pending callbacks are all as
    before, and no exception leaves [open_rom]. *)
Theorem open_rom_rejected (app : EmulatorApp) (rom_file : string)
  (content : option (list Z)) :
  rom_file <> ""%string ->
  content = None
  \/ (exists file, content = Some file /\ take 4 file <> ines_signature) ->
  exists e,
    open_rom app rom_file content =
      (mkApp (status_var app) (image app) (app_memory app) (app_cpu app)
             (app_ppu app) (running app) (e :: errors_shown app)
             (after_pending app), None)
    /\ e = match content with None => OSError | Some _ => Core ValueError end.
Proof.
  intros Hname Hbad. unfold open_rom.
  apply String.eqb_neq in Hname. rewrite Hname.
  destruct Hbad as [-> | (file & -> & Hsig)].
  - eexists. split; reflexivity.
  - rewrite load_ines_rom_bad_signature by exact Hsig.
    eexists. split; reflexivity.
Qed.

Lemma open_rom_rejected_witness :
  exists e,
    open_rom EmulatorApp_init "a.nes" (Some [0x50; 0x4B; 0x03; 0x04; 1; 1; 0]) =
      (mkApp (status_var EmulatorApp_init) (image EmulatorApp_init)
             (app_memory EmulatorApp_init) (app_cpu EmulatorApp_init)
             (app_ppu EmulatorApp_init) (running EmulatorApp_init)
             (e :: errors_shown EmulatorApp_init)
             (after_pending EmulatorApp_init), None)
    /\ e = Core ValueError.
Proof.
  apply (open_rom_rejected EmulatorApp_init "a.nes"
           (Some [0x50; 0x4B; 0x03; 0x04; 1; 1; 0])).
  - discriminate.
  - right. eexists. split; [reflexivity | discriminate].
Defined.

(** X19.  A well-formed file that declares zero PRG banks passes the
    loader, and [open_rom] then lets [ZeroDivisionError] escape from the
    construction of the CPU: [self.memory] has already been replaced by a
    memory no CPU refers to, while the CPU, the PPU, the running flag and
    the status text are those of before, and no error box is shown. *)
Theorem open_rom_zero_banks (app : EmulatorApp) (rom_file : string)
  (q f6 : Z) (rest body : list Z) :
  rom_file <> ""%string -> length rest = 9%nat ->
  open_rom app rom_file (Some (ines_signature ++ [0; q; f6] ++ rest ++ body)) =
    (mkApp (status_var app) (image app) (Some (Own (Memory_init [])))
           (app_cpu app) (app_ppu app) (running app) (errors_shown app)
           (after_pending app),
     Some (Core ZeroDivisionError)).
Proof.
  intros Hname Hrest. unfold open_rom.
  apply String.eqb_neq in Hname. rewrite Hname.
  rewrite load_ines_rom_accepts by exact Hrest. cbv zeta.
  change (Z.to_nat (0 * 16 * 1024)) with 0%nat. rewrite take_0.
  assert (Hcrash : EMUNESV0.CPU_init (Memory_init []) = Raise ZeroDivisionError)
    by (vm_compute; reflexivity).
  rewrite Hcrash. reflexivity.
Qed.

Lemma open_rom_zero_banks_witness :
  open_rom EmulatorApp_init "empty.nes"
    (Some (ines_signature ++ [0; 1; 0] ++ replicate 9 0 ++ [0x55; 0x55])) =
    (mkApp (status_var EmulatorApp_init) (image EmulatorApp_init)
           (Some (Own (Memory_init [])))
           (app_cpu EmulatorApp_init) (app_ppu EmulatorApp_init)
           (running EmulatorApp_init) (errors_shown EmulatorApp_init)
           (after_pending EmulatorApp_init),
     Some (Core ZeroDivisionError)).
Proof.
  apply (open_rom_zero_banks EmulatorApp_init "empty.nes" 1 0 (replicate 9 0) [0x55; 0x55]).
  - discriminate.
  - reflexivity.
Defined.

Lemma Forall_bytesb (l : list Z) : Forall is_byte l -> bytesb l = true.
Proof.
  unfold bytesb. rewrite forallb_forall, Forall_forall. intros H v Hv.
  apply is_byteb_spec, H, list_elem_of_In, Hv.
Qed.

Lemma CPU_okb_spec (c : CPU) : CPU_okb c = true <-> CPU_ok c.
Proof.
  unfold CPU_okb, CPU_ok, regs_in_range, ram_sized.
  rewrite !andb_true_iff, negb_true_iff, Z.eqb_eq, Z.eqb_neq, !Z.leb_le,
    !is_byteb_spec.
  assert (Hne : Py.len (prg_rom (memory c)) <> 0 <-> prg_rom (memory c) <> []).
  { unfold Py.len. destruct (prg_rom (memory c)); cbn [length]; split;
      intros; try congruence; lia. }
  rewrite Hne. split.
  - intros ((((((((H1 & H2) & H3) & H4) & H5) & H6) & H7) & H8) & H9).
    auto 10 using bytesb_Forall.
  - intros (H1 & H2 & H3 & H4 & H5 & H6 & H7 & H8 & H9).
    auto 12 using Forall_bytesb.
Qed.

(** X20.  Opening a file that the loader accepts with a non-empty PRG-ROM
    of bytes builds the CPU at the reset vector, runs one instruction at
    once, shows the black frame, sets the status text and the running
    flag, registers one more callback, and lets no exception escape. *)
Theorem open_rom_starts (app : EmulatorApp) (rom_file : string)
  (file prg chr : list Z) :
  rom_file <> ""%string ->
  EMUNESV0.load_ines_rom file = Ok (prg, chr) ->
  prg <> [] -> bytesb prg = true ->
  exists c0 c1,
    EMUNESV0.CPU_init (Memory_init prg) = Ok c0
    /\ EMUNESV0.step c0 = Ok c1
    /\ CPU_okb c1 = true
    /\ open_rom app rom_file (Some file) =
         (mkApp (String.append "Loaded: " rom_file) (frame (PPU_init chr))
                (Some Shared) (Some c1) (Some (PPU_init chr)) true
                (errors_shown app) (S (after_pending app)), None).
Proof.
  intros Hname Hload Hne Hb.
  destruct (CPU_init_defined prg Hne Hb) as (c0 & Hinit & Hok0).
  destruct (step_ok c0 Hok0) as (c1 & Hstep & Hok1).
  exists c0, c1. split; [exact Hinit |]. split; [exact Hstep |].
  split; [apply CPU_okb_spec, Hok1 |].
  unfold open_rom. apply String.eqb_neq in Hname. rewrite Hname.
  rewrite Hload. cbv zeta. rewrite Hinit.
  unfold emulate. cbn [running app_cpu app_ppu negb].
  rewrite Hstep. rewrite render_frame_black. reflexivity.
Qed.

Lemma open_rom_starts_witness :
  exists c0 c1,
    EMUNESV0.CPU_init (Memory_init [0xEA; 0xEA]) = Ok c0
    /\ EMUNESV0.step c0 = Ok c1
    /\ CPU_okb c1 = true
    /\ open_rom EmulatorApp_init "nop.nes"
         (Some (ines_signature ++ [1; 0; 0] ++ replicate 9 0 ++ [0xEA; 0xEA])) =
         (mkApp (String.append "Loaded: " "nop.nes") (frame (PPU_init []))
                (Some Shared) (Some c1) (Some (PPU_init [])) true
                (errors_shown EmulatorApp_init)
                (S (after_pending EmulatorApp_init)), None).
Proof.
  apply (open_rom_starts EmulatorApp_init "nop.nes"
           (ines_signature ++ [1; 0; 0] ++ replicate 9 0 ++ [0xEA; 0xEA])
           [0xEA; 0xEA] []).
  - discriminate.
  - reflexivity.
  - discriminate.
  - reflexivity.
Defined.

(** X21.  While the emulation runs over a well-formed CPU, a callback
    that fires executes one instruction, redraws an all-zero frame of the
    same shape, registers itself again and raises nothing: the number of
    pending callbacks is the same after as before, and the CPU is
    well-formed again, so a chain of callbacks never ends by itself. *)
Theorem timer_keeps_chain (app : EmulatorApp) (c : CPU) (p : PPU) (k : nat) :
  running app = true -> app_cpu app = Some c -> app_ppu app = Some p ->
  after_pending app = S k -> CPU_okb c = true ->
  exists c1,
    EMUNESV0.step c = Ok c1
    /\ CPU_okb c1 = true
    /\ timer_fires app =
         (mkApp (status_var app) (map (map (map (fun _ : Z => 0))) (frame p))
                (app_memory app) (Some c1)
                (Some (mkPPU (chr_rom p) (map (map (map (fun _ : Z => 0))) (frame p))))
                true (errors_shown app) (S k), None).
Proof.
  intros Hrun Hcpu Hppu Hpend Hok. apply CPU_okb_spec in Hok.
  destruct (step_ok c Hok) as (c1 & Hstep & Hok1).
  exists c1. split; [exact Hstep |]. split; [apply CPU_okb_spec, Hok1 |].
  unfold timer_fires. rewrite Hpend. unfold emulate.
  cbn [running app_cpu app_ppu status_var image app_memory errors_shown after_pending].
  rewrite Hrun, Hcpu, Hppu. cbn [negb]. rewrite Hstep.
  unfold render_frame. reflexivity.
Qed.

Lemma timer_keeps_chain_witness :
  exists c1,
    EMUNESV0.step (boot [0xEA; 0xEA; 0xEA; 0xEA; 0x00; 0x80]) = Ok c1
    /\ CPU_okb c1 = true
    /\ timer_fires
         (mkApp "Loaded: nop.nes" [[[0; 0; 0]]] (Some Shared)
                (Some (boot [0xEA; 0xEA; 0xEA; 0xEA; 0x00; 0x80]))
                (Some (mkPPU [] [[[7; 7; 7]]])) true [] 1) =
         (mkApp "Loaded: nop.nes" (map (map (map (fun _ : Z => 0))) [[[7; 7; 7]]])
                (Some Shared) (Some c1)
                (Some (mkPPU [] (map (map (map (fun _ : Z => 0))) [[[7; 7; 7]]])))
                true [] 1, None).
Proof.
  apply (timer_keeps_chain
           (mkApp "Loaded: nop.nes" [[[0; 0; 0]]] (Some Shared)
                  (Some (boot [0xEA; 0xEA; 0xEA; 0xEA; 0x00; 0x80]))
                  (Some (mkPPU [] [[[7; 7; 7]]])) true [] 1)
           (boot [0xEA; 0xEA; 0xEA; 0xEA; 0x00; 0x80]) (mkPPU [] [[[7; 7; 7]]]) 0).
  - reflexivity.
  - reflexivity.
  - reflexivity.
  - reflexivity.
  - vm_compute. reflexivity.
Defined.
